(** * juanPlot: bar plots and heatmaps of retinal RNA-seq datasets

    A shallow embedding of [wheelBuild/juanPlot/__init__.py].  Every plotting
    function of the module is a definition of the same name below.  The
    pandas, numpy and matplotlib calls the module makes are modelled by the
    small set of primitives of the first sections; the drawing surface is a
    log of the calls made on it, threaded through an error monad.  The [ax]
    argument of the functions, which selects the surface ([plt.gca()] when
    it is left out), has no counterpart: there is one surface, the log. *)

From Stdlib Require Import QArith Qround.
From stdpp Require Import gmap strings list fin_maps.

Local Open Scope string_scope.
Local Open Scope list_scope.

(** ** Exceptions and the plotting monad *)

(** The Python exceptions the module can raise. *)
Inductive Exn : Type :=
  | KeyError (key : string)      (* [pC['m4']] on a dict without 'm4' *)
  | IndexError                   (* [iloc[0, ...]] on a frame without rows,
                                    or an integer index past a sequence *)
  | ValueError (msg : string).   (* numpy broadcasting failure in [ax.bar] *)

(** A numpy 2D array as the module uses it: the number of columns is kept
    apart from the rows because an array may have no row at all, as in
    [data.shape == (0, 30)]. *)
Record ndarray : Type := mk_ndarray {
  shape1 : nat;
  rows : list (list Q)
}.

Definition shape0 (a : ndarray) : nat := length (rows a).

(** Calls made on the axes ([ax.bar], [ax.imshow], ...), in the order of
    the call.  Font properties and other arguments that carry no data are
    left out of the record of a call. *)
Inductive Call : Type :=
  | Style (what : string)
  | Bar (x height : list Q) (color : list string)
  | SetXticks (ticks : list Q) (minor : bool)
  | SetYticks (ticks : list Q)
  | SetXticklabels (labels : list string)
  | SetYticklabels (labels : list string)
  | SetYlabel (label : string)
  | SetTitle (title : string)
  | Imshow (data : ndarray) (cmap : string)
  | Colorbar (orientation : string)
  | CbarSetYlabel (label : string)
  | Axhline (y : Q) (color : string) (linewidth : Q)
  | Axvline (x : Q) (color : string) (linewidth : Q)
  | Plot (xs ys : list Q) (color : string) (lw : Q)
  | Text (x y : Q) (s : string) (color : string) (ha : string) (rotation : Q).

(** A computation either raises or returns, and leaves the log of the calls
    made so far behind in both cases. *)
Definition Plt (A : Type) : Type := list Call → (Exn + A) * list Call.

Definition ret {A} (a : A) : Plt A := λ log, (inr a, log).

Definition raise {A} (e : Exn) : Plt A := λ log, (inl e, log).

Definition bind {A B} (m : Plt A) (k : A → Plt B) : Plt B :=
  λ log, match m log with
         | (inr a, log') => k a log'
         | (inl e, log') => (inl e, log')
         end.

Notation "x <- m ;; k" := (bind m (λ x, k))
  (at level 100, m at next level, right associativity).
Notation "m ;;; k" := (bind m (λ _, k))
  (at level 100, right associativity).

Definition call (c : Call) : Plt unit := λ log, (inr tt, log ++ [c]).

(** [for x in l: body] *)
Fixpoint for_ {A} (l : list A) (body : A → Plt unit) : Plt unit :=
  match l with
  | [] => ret tt
  | x :: l' => body x ;;; for_ l' body
  end.

(** ** Python and numpy primitives *)

(** [l[a:b]] for literal bounds [0 <= a <= b]: bounds past the end are
    clipped, never an error. *)
Definition slice {A} (a b : nat) (l : list A) : list A := take (b - a) (drop a l).

(** [l[i]] with an integer index: past the end is an [IndexError]. *)
Definition index {A} (l : list A) (i : nat) : Plt A :=
  match l !! i with
  | Some x => ret x
  | None => raise IndexError
  end.

(** [np.arange(start, stop)] with step 1: [ceil(stop - start)] values. *)
Definition arange (start stop : Q) : list Q :=
  map (λ k : nat, Qred (start + inject_Z (Z.of_nat k)))
      (seq 0 (Z.to_nat (Qceiling (stop - start)))).

(** [c + a] for a scalar [c] and an array [a]. *)
Definition np_add (c : Q) (a : list Q) : list Q := map (λ x, Qred (c + x)) a.

(** [np.ones([r, c])] *)
Definition np_ones (r c : nat) : ndarray :=
  {| shape1 := c; rows := replicate r (replicate c 1%Q) |}.

(** [np.sum(a)] of an array of group sizes. *)
Definition np_sum (a : list nat) : nat := foldr Nat.add 0%nat a.

Definition QofN (n : nat) : Q := inject_Z (Z.of_nat n).

(** ** pandas primitives *)

(** A data frame: one row per gene.  [symbol] is the column of that name
    (every frame of the model has it); [cells] holds every column by
    position ([width] of them in each row), the text columns at the left of
    a table included as cells that no slice of the module reads as
    numbers. *)
Record DataFrame : Type := mk_DataFrame {
  symbol : list string;
  width : nat;
  cells : list (list Q)
}.

Definition wf_DataFrame (df : DataFrame) : Prop :=
  length (symbol df) = length (cells df) ∧
  Forall (λ r, length r = width df) (cells df).

(** [df.iloc[0, a:b].to_numpy()]: the integer row index raises when the
    frame has no row; the column slice is clipped like a Python slice. *)
Definition iloc_row (df : DataFrame) (a b : nat) : Plt (list Q) :=
  match cells df !! 0%nat with
  | Some r => ret (slice a b r)
  | None => raise IndexError
  end.

(** [df.iloc[0:, a:b]]: every row, columns [a] to [b] clipped to the frame. *)
Definition iloc (df : DataFrame) (a b : nat) : DataFrame :=
  {| symbol := symbol df;
     width := Nat.min (width df) b - a;
     cells := map (slice a b) (cells df) |}.

(** [df.values] *)
Definition values (df : DataFrame) : ndarray :=
  {| shape1 := width df; rows := cells df |}.

(** [x.max()] of a row; [None] stands for the NaN of an empty row. *)
Definition Qmax (a b : Q) : Q := if Qle_bool a b then b else a.

Definition series_max (x : list Q) : option Q :=
  match x with
  | [] => None
  | v :: x' => Some (foldl Qmax v x')
  end.

(** [lambda x: x/x.max()].  Cells are rationals: the model has no inf or
    NaN, so a row whose maximum is 0 is outside what it describes. *)
Definition div_by_max (x : list Q) : list Q :=
  match series_max x with
  | Some m => map (λ v, Qred (v / m)) x
  | None => []
  end.

(** [df.apply(f, axis=1)] for an [f] from rows to rows of the same length;
    a frame without rows comes back unchanged. *)
Definition apply_rows (f : list Q → list Q) (df : DataFrame) : DataFrame :=
  {| symbol := symbol df; width := width df; cells := map f (cells df) |}.

(** ** Palettes *)

(** A dict literal: later entries win. *)
Definition dict (l : list (string * string)) : gmap string string :=
  foldl (λ m kv, <[kv.1 := kv.2]> m) ∅ l.

(** Python truthiness of the [pC] argument: [None] and [{}] are false. *)
Definition truthy (pC : option (gmap string string)) : bool :=
  match pC with
  | None => false
  | Some d => negb (bool_decide (d = ∅))
  end.

(** [if not pC: pC = default] *)
Definition if_not (pC : option (gmap string string))
    (default : gmap string string) : gmap string string :=
  match pC with
  | Some d => if truthy pC then d else default
  | None => default
  end.

(** [pC[k]] *)
Definition getitem (pC : gmap string string) (k : string) : Plt string :=
  match pC !! k with
  | Some v => ret v
  | None => raise (KeyError k)
  end.

(** [[pC[k1], pC[k2], ...]], evaluated from left to right. *)
Fixpoint getitems (pC : gmap string string) (keys : list string) : Plt (list string) :=
  match keys with
  | [] => ret []
  | k :: keys' =>
      v <- getitem pC k ;;
      vs <- getitems pC keys' ;;
      ret (v :: vs)
  end.

(** ** matplotlib primitives *)

(** numpy broadcasting of two 1D shapes. *)
Definition broadcast (a b : nat) : option nat :=
  if (a =? b)%nat then Some a
  else if (a =? 1)%nat then Some b
  else if (b =? 1)%nat then Some a
  else None.

(** A 1D array broadcast to length [n]. *)
Definition broadcast_to {A} (n : nat) (l : list A) : list A :=
  match l with
  | [x] => replicate n x
  | _ => l
  end.

(** The colours of the bars: the colour list is cycled, and is 'none'
    when empty. *)
Definition cycle (n : nat) (color : list string) : list string :=
  map (λ i, default "none" (color !! (i mod length color)%nat)) (seq 0 n).

(** The handle [ax.bar] returns: one (x, height, colour) per bar. *)
Abbreviation BarContainer := (list (Q * Q * string)) (only parsing).

Definition shape_mismatch : string :=
  "shape mismatch: objects cannot be broadcast to a single shape".

(** [ax.bar(x, height, width=0.8, color=color)]: positions and heights are
    broadcast against each other, which raises when their lengths differ
    and neither is 1. *)
Definition ax_bar (x height : list Q) (color : list string) : Plt BarContainer :=
  match broadcast (length x) (length height) with
  | Some n =>
      call (Bar x height color) ;;;
      ret (zip (zip (broadcast_to n x) (broadcast_to n height)) (cycle n color))
  | None => raise (ValueError shape_mismatch)
  end.

Definition defaultFonts : Plt unit :=
  call (Style "ticklabel_format(style='sci',axis='y',scilimits=(0,2))") ;;;
  call (Style "spines['top'].set_visible(False)") ;;;
  call (Style "spines['right'].set_visible(False)") ;;;
  call (Style "tick_params(axis='both',which='major',labelsize=24)").

(** [if b: body] *)
Definition when_ (b : bool) (body : Plt unit) : Plt unit :=
  if b then body else ret tt.

(** ** Palette literals

    The dict literals of the module.  A literal that several functions
    repeat character for character is written once. *)

(** Default [pC] of [plotBars], [plotBars_Ogawa2021], [plotBars_Hoang2020],
    [plotBars_Sun2018] and of the four heatmaps of the same datasets. *)
Definition pC_photoreceptors : gmap string string :=
  dict [("r", "#747474"); ("u", "#B540B7"); ("s", "#4669F2"); ("m", "#04CD22");
        ("l", "#CC2C2A"); ("m4", "#cdcd04"); ("onBC", "#ccf2ff"); ("offBC", "#663d00")].

(** Default [pC] of [plotBars_Hoang2020_Ret]. *)
Definition pC_plotBars_Hoang2020_Ret : gmap string string :=
  dict [("RPC", "#DADADA"); ("PRPC", "#dfdac8"); ("Cones_larval", "#dcc360");
        ("Cones_adult", "#ffd429"); ("Rods", "#7d7d7d"); ("HC", "#FC7715");
        ("BC_larval", "#ccf2ff"); ("BC_adult", "#1B98C3"); ("AC_larval", "#3DF591");
        ("ACgaba", "#3DF5C3"); ("ACgly", "#56F53D"); ("RGC_larval", "#F53D59");
        ("RGC_adult", "#BB0622"); ("MGi", "#EA9D81"); ("MG1", "#A2644E");
        ("MG2", "#7E4835"); ("MG3", "#613728")].

(** Default [pC] of [heatmap_Hoang2020_Ret]: 'BC_adult' differs from the
    bar plot's. *)
Definition pC_heatmap_Hoang2020_Ret : gmap string string :=
  dict [("RPC", "#DADADA"); ("PRPC", "#dfdac8"); ("Cones_larval", "#dcc360");
        ("Cones_adult", "#ffd429"); ("Rods", "#7d7d7d"); ("HC", "#FC7715");
        ("BC_larval", "#ccf2ff"); ("BC_adult", "#663d00"); ("AC_larval", "#3DF591");
        ("ACgaba", "#3DF5C3"); ("ACgly", "#56F53D"); ("RGC_larval", "#F53D59");
        ("RGC_adult", "#BB0622"); ("MGi", "#EA9D81"); ("MG1", "#A2644E");
        ("MG2", "#7E4835"); ("MG3", "#613728")].

(** Default [pC] of [plotBars_Hoang2020_PhotoDev] and its heatmap. *)
Definition pC_Hoang2020_PhotoDev : gmap string string :=
  dict [("RPC", "#DADADA"); ("PRP", "#dfdac8"); ("Cle", "#dacd9a"); ("Clm", "#dcc360");
        ("Cll", "#cca819"); ("C", "#ffd429"); ("R", "#7d7d7d")].

(** Default [pC] of [plotBars_Hoang2020_PhotoDev_withcontaminatedlarvalrods]
    and its heatmap. *)
Definition pC_Hoang2020_PhotoDev_withcontaminatedlarvalrods : gmap string string :=
  dict [("RPC", "#DADADA"); ("PRP", "#dfdac8"); ("Cle", "#dacd9a"); ("Clm", "#dcc360");
        ("Cll", "#cca819"); ("C", "#ffd429"); ("Rll", "#a3a3a3"); ("R", "#7d7d7d")].

(** Default [pC] of [plotBars_Nerli2022] and its heatmap. *)
Definition pC_Nerli2022 : gmap string string :=
  dict [("RPC", "#DADADA"); ("PR", "#dcc360"); ("HC_AC", "#3DF591"); ("RGC", "#F53D59")].

(** Default [pC] of [plotBars_Yoshimatsu2020] and its heatmap. *)
Definition pC_Yoshimatsu2020 : gmap string string :=
  dict [("u", "#B540B7"); ("u2", "#B789A7")].

(** Default [pC] of [plotBars_Xu2020_RetDev] and its heatmap. *)
Definition pC_Xu2020_RetDev : gmap string string :=
  dict [
    ("RPC24h_prim", "#E9E9E9"); ("RPC24h", "#D2D2D2"); ("RPC24h_D", "#D2B6AF");
    ("RPC24h_V", "#AFAFD2"); ("RPC24h_T", "#AFD2B0"); ("RPC24h_N", "#D2D1AF");
    ("RPC24h_neuro", "#F5E5E8"); ("RPC36h_prim", "#E9E9E9"); ("RPC36h", "#D2D2D2");
    ("RPC36h_D", "#D2B6AF"); ("RPC36h_V", "#AFAFD2"); ("RPC36h_T", "#AFD2B0");
    ("RPC36h_N", "#D2D1AF"); ("RPC36h_hc", "#C5B39D"); ("RPC36h_neuro", "#F5E5E8");
    ("RPC48h_prim", "#E9E9E9"); ("RPC48h", "#D2D2D2"); ("RPC48h_neuro", "#F5E5E8");
    ("RPC48h_neuroMix", "#F5E5E8"); ("RPC48h_rgc", "#EA9D81"); ("RPC48h_MG", "#F5CCD2");
    ("PRPC48h", "#dfdac8"); ("Photo48h", "#dacd9a"); ("HC48h", "#FCCAA5");
    ("BC48h", "#7DAAAF"); ("BC48h_on", "#8398B1"); ("BC48h_off", "#B16D8A");
    ("AC48h", "#95F5C1"); ("AC48h_gaba", "#91F5DA"); ("AC48h_sac", "#78AD93");
    ("RGC48h", "#F53D59"); ("RPC72h_prim", "#E9E9E9"); ("RPC72h_neuro", "#F5E5E8");
    ("RPC72h_bc", "#CCF2FF"); ("RPC72h_rgc", "#F5CCD2"); ("PRPC72h", "#DFDAC8");
    ("Rod72h_early", "#A3A3A3"); ("Rod72h", "#7D7D7D"); ("Cone72h_early", "#DACD9A");
    ("Cone72h_earlyL", "#D69F9E"); ("Cone72h", "#DCC360"); ("Cone72h_UV", "#B778B9");
    ("Cone72h_S", "#7183CC"); ("Cone72h_M", "#57CB69"); ("Cone72h_L", "#C67271");
    ("Cone72h_lateL", "#CE524F"); ("HC72h_early", "#FCCBA8"); ("HC72h", "#FCA668");
    ("HC72h_H1", "#C59965"); ("HC72h_H2H3", "#F7909C"); ("BC72h_on", "#8398B1");
    ("AC72h", "#3DF591"); ("AC72h_gly", "#91F5DA"); ("AC72h_gaba", "#95F5C1");
    ("AC72h_sac", "#78AD93"); ("RGC72h", "#F53D59"); ("MG72h", "#EA9D81");
    ("RPC336h_prim", "#E9E9E9"); ("RPC336h_neuro", "#F5E5E8"); ("RPC336h_bc", "#CCF2FF");
    ("RPC336h_ac", "#B5F5D2"); ("RPC336h_rgc", "#F5CCD2"); ("PRPC336h", "#DFDAC8");
    ("Rod336h", "#7D7D7D"); ("Cone336h", "#FFD429"); ("Cone336h_U", "#B778B9");
    ("Cone336h_S", "#7183CC"); ("Cone336h_M", "#57CB69"); ("Cone336h_L", "#C67271");
    ("Cone336h_lateL", "#CE524F"); ("HC336h", "#FCA668"); ("BC336h_on", "#8398B1");
    ("BC336h_off", "#B16D8A"); ("AC336h_gaba", "#3DF5C3"); ("AC336h_gly", "#56F53D");
    ("AC336h_ngng", "#89AC25"); ("AC336h_sac", "#78AD93"); ("AC336h_dac", "#A4D1D8");
    ("RGC336h", "#F53D59"); ("MG336h", "#EA9D81")
  ].

(** The keys [plotBars_Xu2020_RetDev] and [heatmap_Xu2020_RetDev] look up,
    in order; the tick labels of both are the same 80 strings. *)
Definition names_Xu2020_RetDev : list string :=
  [
    "RPC24h_prim"; "RPC24h"; "RPC24h_D"; "RPC24h_V"; "RPC24h_T"; "RPC24h_N"; "RPC24h_neuro";
    "RPC36h_prim"; "RPC36h"; "RPC36h_D"; "RPC36h_V"; "RPC36h_T"; "RPC36h_N"; "RPC36h_hc"; "RPC36h_neuro";
    "RPC48h_prim"; "RPC48h"; "RPC48h_neuro"; "RPC48h_neuroMix"; "RPC48h_rgc"; "RPC48h_MG"; "PRPC48h"; "Photo48h";
    "HC48h"; "BC48h"; "BC48h_on"; "BC48h_off"; "AC48h"; "AC48h_gaba"; "AC48h_sac"; "RGC48h";
    "RPC72h_prim"; "RPC72h_neuro"; "RPC72h_bc"; "RPC72h_rgc"; "PRPC72h"; "Rod72h_early"; "Rod72h"; "Cone72h_early";
    "Cone72h_earlyL"; "Cone72h"; "Cone72h_UV"; "Cone72h_S"; "Cone72h_M"; "Cone72h_L"; "Cone72h_lateL"; "HC72h_early";
    "HC72h"; "HC72h_H1"; "HC72h_H2H3"; "BC72h_on"; "AC72h"; "AC72h_gly"; "AC72h_gaba"; "AC72h_sac"; "RGC72h"; "MG72h";
    "RPC336h_prim"; "RPC336h_neuro"; "RPC336h_bc"; "RPC336h_ac"; "RPC336h_rgc"; "PRPC336h"; "Rod336h"; "Cone336h";
    "Cone336h_U"; "Cone336h_S"; "Cone336h_M"; "Cone336h_L"; "Cone336h_lateL"; "HC336h"; "BC336h_on"; "BC336h_off";
    "AC336h_gaba"; "AC336h_gly"; "AC336h_ngng"; "AC336h_sac"; "AC336h_dac"; "RGC336h"; "MG336h"
  ].

(** ** Bar plots *)

Definition formatBarPlot (geneSymbol : string) : Plt unit :=
  defaultFonts ;;;
  call (SetXticks [7#2; 10#1; 33#2; 24#1; 63#2]%Q false) ;;;
  call (SetXticklabels ["Rods"; "UV"; "S"; "M"; "L"]) ;;;
  call (SetYlabel "FPKM") ;;;
  call (SetTitle geneSymbol).

Definition plotBars (barData : DataFrame) (geneSymbol : string)
    (pC : option (gmap string string)) : Plt BarContainer :=
  let n := arange 1 7 in                             (* Rods *)
  let n := n ++ np_add 7 (arange 1 6) in             (* UV *)
  let n := n ++ np_add 13 (arange 1 7) in            (* S *)
  let n := n ++ np_add 20 (arange 1 8) in            (* M *)
  let n := n ++ np_add 28 (arange 1 7) in            (* L *)
  let h_start := 7%nat in
  let h_end := 37%nat in
  h <- iloc_row barData h_start h_end ;;
  let pC := if_not pC pC_photoreceptors in
  barColors <- getitems pC
    ["r"; "r"; "r"; "r"; "r"; "r";
     "u"; "u"; "u"; "u"; "u";
     "s"; "s"; "s"; "s"; "s"; "s";
     "m"; "m"; "m"; "m"; "m"; "m"; "m";
     "l"; "l"; "l"; "l"; "l"; "l"] ;;
  pH <- ax_bar n h barColors ;;
  formatBarPlot geneSymbol ;;;
  ret pH.

Definition formatBarPlot_Ogawa2021 (geneSymbol : string) (pctPlot : bool) : Plt unit :=
  defaultFonts ;;;
  call (SetXticks (arange 1 9) false) ;;;
  call (SetXticklabels ["Rods"; "UV"; "S"; "M"; "L"; "M4"; "BC$_{on}$"; "BC$_{off}$"]) ;;;
  call (Style "xaxis.set_tick_params(rotation=45)") ;;;
  call (SetYlabel "avg. counts") ;;;
  when_ pctPlot (call (SetYlabel "% expressing")) ;;;
  call (SetTitle geneSymbol).

Definition plotBars_Ogawa2021 (barData : DataFrame) (geneSymbol : string)
    (pC : option (gmap string string)) (pctPlot : bool) : Plt BarContainer :=
  let n := arange 1 9 in
  let delta := 0%nat in
  let delta := if pctPlot then 9%nat else delta in
  let h_start := (2 + delta)%nat in
  let h_end := (10 + delta)%nat in
  h <- iloc_row barData h_start h_end ;;
  let pC := if_not pC pC_photoreceptors in
  barColors <- getitems pC
    ["r"; "u"; "s";
     "m"; "l"; "m4";
     "onBC"; "offBC"] ;;
  pH <- ax_bar n h barColors ;;
  formatBarPlot_Ogawa2021 geneSymbol pctPlot ;;;
  ret pH.

Definition formatBarPlot_Hoang2020 (geneSymbol : string) (pctPlot : bool) : Plt unit :=
  defaultFonts ;;;
  call (SetXticks (arange 1 8) false) ;;;
  call (SetXticklabels ["Rods"; "UV"; "S"; "M1"; "M3"; "M4"; "L"]) ;;;
  call (Style "xaxis.set_tick_params(rotation=45)") ;;;
  call (SetYlabel "avg. counts") ;;;
  when_ pctPlot (call (SetYlabel "% expressing")) ;;;
  call (SetTitle geneSymbol).

Definition plotBars_Hoang2020 (barData : DataFrame) (geneSymbol : string)
    (pC : option (gmap string string)) (pctPlot : bool) : Plt BarContainer :=
  let n := arange 1 8 in
  let delta := 0%nat in
  let delta := if pctPlot then 8%nat else delta in
  let h_start := (2 + delta)%nat in
  let h_end := (9 + delta)%nat in
  h <- iloc_row barData h_start h_end ;;
  let pC := if_not pC pC_photoreceptors in
  barColors <- getitems pC
    ["r"; "u"; "s";
     "m"; "m"; "m4";
     "l"] ;;
  pH <- ax_bar n h barColors ;;
  formatBarPlot_Hoang2020 geneSymbol pctPlot ;;;
  ret pH.

Definition formatBarPlot_Sun2018 (geneSymbol : string) : Plt unit :=
  defaultFonts ;;;
  call (SetXticks [5#2; 15#2]%Q false) ;;;
  call (SetXticklabels ["Rods"; "notRods"]) ;;;
  call (SetYlabel "cpm") ;;;
  call (SetTitle geneSymbol).

Definition plotBars_Sun2018 (barData : DataFrame) (geneSymbol : string)
    (pC : option (gmap string string)) : Plt BarContainer :=
  let n := arange 1 5 in                             (* Rods (GFP+) *)
  let n := n ++ np_add 5 (arange 1 5) in             (* Not Rods (GFP-) *)
  let h_start := 7%nat in
  let h_end := 16%nat in
  h <- iloc_row barData h_start h_end ;;
  let pC := if_not pC pC_photoreceptors in
  barColors <- getitems pC
    ["r"; "r"; "r"; "r";
     "m4"; "m4"; "m4"; "m4"] ;;
  pH <- ax_bar n h barColors ;;
  formatBarPlot_Sun2018 geneSymbol ;;;
  ret pH.

Definition rotate_xticklabels : Call :=
  Style "setp(get_xticklabels(),rotation=45,ha='right',va='center',rotation_mode='anchor')".

Definition formatBarPlot_Hoang2020_Ret (geneSymbol : string) (pctPlot : bool) : Plt unit :=
  defaultFonts ;;;
  call (SetXticks (arange 1 18) false) ;;;
  call (SetXticklabels
    ["RPC"; "PRPC"; "C$_{larval}$"; "C$_{adult}$"; "R$_{ods}$"; "HC"; "BC$_{larval}$";
     "BC$_{adult}$"; "AC$_{larval}$"; "AC$_{GABA}$"; "AC$_{Gly}$"; "RGC$_{larval}$";
     "RGC$_{adult}$"; "MGi"; "MG1"; "MG2"; "MG3"]) ;;;
  call rotate_xticklabels ;;;
  call (SetYlabel "avg. counts") ;;;
  when_ pctPlot (call (SetYlabel "% expressing")) ;;;
  call (SetTitle geneSymbol).

Definition plotBars_Hoang2020_Ret (barData : DataFrame) (geneSymbol : string)
    (pC : option (gmap string string)) (pctPlot : bool) : Plt BarContainer :=
  let n := arange 1 18 in
  let delta := 0%nat in
  let delta := if pctPlot then 19%nat else delta in
  let h_start := (2 + delta)%nat in
  let h_end := (19 + delta)%nat in
  h <- iloc_row barData h_start h_end ;;
  let pC := if_not pC pC_plotBars_Hoang2020_Ret in
  barColors <- getitems pC
    ["RPC"; "PRPC";
     "Cones_larval"; "Cones_adult"; "Rods";
     "HC";
     "BC_larval"; "BC_adult";
     "AC_larval"; "ACgaba"; "ACgly";
     "RGC_larval"; "RGC_adult";
     "MGi"; "MG1"; "MG2"; "MG3"] ;;
  pH <- ax_bar n h barColors ;;
  formatBarPlot_Hoang2020_Ret geneSymbol pctPlot ;;;
  ret pH.

Definition formatBarPlot_Hoang2020_PhotoDev (geneSymbol : string) (pctPlot : bool) : Plt unit :=
  defaultFonts ;;;
  call (SetXticks (arange 1 8) false) ;;;
  call (SetXticklabels
    ["RPC"; "PRPC"; "Cone$_{larval-early}$"; "Cone$_{larval-mid}$";
     "Cone$_{larval-late}$"; "Cone"; "Rod"]) ;;;
  call rotate_xticklabels ;;;
  call (SetYlabel "avg. counts") ;;;
  when_ pctPlot (call (SetYlabel "% expressing")) ;;;
  call (SetTitle geneSymbol).

Definition plotBars_Hoang2020_PhotoDev (barData : DataFrame) (geneSymbol : string)
    (pC : option (gmap string string)) (pctPlot : bool) : Plt BarContainer :=
  let n := arange 1 8 in
  let delta := 0%nat in
  let delta := if pctPlot then 8%nat else delta in
  let h_start := (2 + delta)%nat in
  let h_end := (9 + delta)%nat in
  h <- iloc_row barData h_start h_end ;;
  let pC := if_not pC pC_Hoang2020_PhotoDev in
  barColors <- getitems pC
    ["RPC"; "PRP";
     "Cle"; "Clm"; "Cll";
     "C"; "R"] ;;
  pH <- ax_bar n h barColors ;;
  formatBarPlot_Hoang2020_PhotoDev geneSymbol pctPlot ;;;
  ret pH.

(** Formats with [formatBarPlot_Hoang2020_PhotoDev], as the source does. *)
Definition plotBars_Hoang2020_PhotoDev_withcontaminatedlarvalrods (barData : DataFrame)
    (geneSymbol : string) (pC : option (gmap string string)) (pctPlot : bool)
    : Plt BarContainer :=
  let n := arange 1 9 in
  let delta := 0%nat in
  let delta := if pctPlot then 9%nat else delta in
  let h_start := (2 + delta)%nat in
  let h_end := (10 + delta)%nat in
  h <- iloc_row barData h_start h_end ;;
  let pC := if_not pC pC_Hoang2020_PhotoDev_withcontaminatedlarvalrods in
  barColors <- getitems pC
    ["RPC"; "PRP";
     "Cle"; "Clm"; "Cll";
     "C";
     "Rll"; "R"] ;;
  pH <- ax_bar n h barColors ;;
  formatBarPlot_Hoang2020_PhotoDev geneSymbol pctPlot ;;;
  ret pH.

Definition formatBarPlot_Hoang2020_PhotoDev_withcontaminatedlarvalrods
    (geneSymbol : string) (pctPlot : bool) : Plt unit :=
  defaultFonts ;;;
  call (SetXticks (arange 1 9) false) ;;;
  call (SetXticklabels
    ["RPC"; "PRPC"; "Cone$_{larval-early}$"; "Cone$_{larval-mid}$";
     "Cone$_{larval-late}$"; "Cone$"; "Rod$_{larval-late}$"; "Rod"]) ;;;
  call rotate_xticklabels ;;;
  call (SetYlabel "avg. counts") ;;;
  when_ pctPlot (call (SetYlabel "% expressing")) ;;;
  call (SetTitle geneSymbol).

Definition formatBarPlot_Xu2020_RetDev (geneSymbol : string) (pctPlot : bool) : Plt unit :=
  defaultFonts ;;;
  call (SetXticks (arange 1 81) false) ;;;
  call (SetXticklabels names_Xu2020_RetDev) ;;;
  call rotate_xticklabels ;;;
  call (SetYlabel "avg. counts") ;;;
  when_ pctPlot (call (SetYlabel "% expressing")) ;;;
  call (SetTitle geneSymbol).

Definition plotBars_Xu2020_RetDev (barData : DataFrame) (geneSymbol : string)
    (pC : option (gmap string string)) (pctPlot : bool) : Plt BarContainer :=
  let n := arange 1 81 in
  let delta := 0%nat in
  let delta := if pctPlot then 82%nat else delta in
  let h_start := (2 + delta)%nat in
  let h_end := (82 + delta)%nat in
  h <- iloc_row barData h_start h_end ;;
  let pC := if_not pC pC_Xu2020_RetDev in
  barColors <- getitems pC names_Xu2020_RetDev ;;
  pH <- ax_bar n h barColors ;;
  formatBarPlot_Xu2020_RetDev geneSymbol pctPlot ;;;
  ret pH.

Definition formatBarPlot_Nerli2022 (geneSymbol : string) : Plt unit :=
  defaultFonts ;;;
  call (SetXticks [2#1; 15#2; 13#1; 37#2]%Q false) ;;;
  call (SetXticklabels ["RPC"; "Photo"; "HC/AC"; "RGC"]) ;;;
  call (SetXticks
    [0#1; 1#1; 2#1; 3#1; 4#1; 11#2; 13#2; 15#2; 17#2; 19#2;
     11#1; 12#1; 13#1; 14#1; 15#1; 33#2; 35#2; 37#2; 39#2; 41#2]%Q true) ;;;
  call (SetYlabel "counts (norm.)") ;;;
  call (SetTitle geneSymbol).

Definition plotBars_Nerli2022 (barData : DataFrame) (geneSymbol : string)
    (pC : option (gmap string string)) : Plt BarContainer :=
  let n := arange 0 5 in                             (* Retinal progenitors *)
  let n := n ++ np_add (9#2) (arange 1 6) in         (* Photoreceptors *)
  let n := n ++ np_add 10 (arange 1 6) in            (* Amacrine/Horizontal cells *)
  let n := n ++ np_add (31#2) (arange 1 6) in        (* Retinal ganglion cells *)
  let h_start := 1%nat in
  let h_end := 21%nat in
  h <- iloc_row barData h_start h_end ;;
  let pC := if_not pC pC_Nerli2022 in
  barColors <- getitems pC
    ["RPC"; "RPC"; "RPC"; "RPC"; "RPC";
     "PR"; "PR"; "PR"; "PR"; "PR";
     "HC_AC"; "HC_AC"; "HC_AC"; "HC_AC"; "HC_AC";
     "RGC"; "RGC"; "RGC"; "RGC"; "RGC"] ;;
  pH <- ax_bar n h barColors ;;
  formatBarPlot_Nerli2022 geneSymbol ;;;
  ret pH.

Definition formatBarPlot_Yoshimatsu2020 (geneSymbol : string) : Plt unit :=
  defaultFonts ;;;
  call (SetXticks [5#2; 15#2]%Q false) ;;;
  call (SetXticklabels ["UV$_{non-sz}$"; "UV$_{sz}$"]) ;;;
  call (SetYlabel "cpm") ;;;
  call (SetTitle geneSymbol).

Definition plotBars_Yoshimatsu2020 (barData : DataFrame) (geneSymbol : string)
    (pC : option (gmap string string)) : Plt BarContainer :=
  let n := arange 1 5 in                             (* non-strike zone UV cones *)
  let n := n ++ np_add 5 (arange 1 5) in             (* strike zone UV cones *)
  let h_start := 1%nat in
  let h_end := 9%nat in
  h <- iloc_row barData h_start h_end ;;
  let pC := if_not pC pC_Yoshimatsu2020 in
  barColors <- getitems pC
    ["u2"; "u2"; "u2"; "u2";
     "u"; "u"; "u"; "u"] ;;
  pH <- ax_bar n h barColors ;;
  formatBarPlot_Yoshimatsu2020 geneSymbol ;;;
  ret pH.

(** ** Heatmaps *)

(** The handles [heatmap_general] returns: the image (the block it shows)
    and the colorbar (its label). *)
Abbreviation AxesImage := ndarray (only parsing).
Abbreviation ColorbarHandle := string (only parsing).

Definition heatmap_general (data : ndarray) (row_labels col_labels : list string)
    (groupsN : list nat) (groupsColors groupsLabels : list string)
    (cbarlabel : string) (groupRotation : Q) : Plt (AxesImage * ColorbarHandle) :=
  let '(data, row_labels) :=
    if (shape0 data =? 0)%nat
    then (np_ones 2 (shape1 data), ["not found"; "not found"])
    else (data, row_labels) in
  (* Plot the heatmap *)
  call (Imshow data "bone") ;;;
  let im := data in
  (* Create colorbar *)
  call (Colorbar "horizontal") ;;;
  call (CbarSetYlabel cbarlabel) ;;;
  let cbar := cbarlabel in
  (* We want to show all ticks and label them with the respective list entries *)
  call (SetXticks (arange 0 (QofN (shape1 data))) false) ;;;
  call (SetYticks (arange 0 (QofN (shape0 data)))) ;;;
  call (SetXticklabels col_labels) ;;;
  call (SetYticklabels row_labels) ;;;
  call (Style "tick_params(top=True,bottom=False,labeltop=True,labelbottom=False)") ;;;
  call (Style "setp(get_yticklabels(),rotation=30,ha='right',va='center',rotation_mode='anchor')") ;;;
  call (Style "spines") ;;;
  (* Custom grid according to photoreceptor subtype *)
  for_ (arange (-1#2) (QofN (shape0 data) + (1#2)))
    (λ h, call (Axhline h "black" 2)) ;;;
  for_ (arange (-1#2) (QofN (shape1 data) + (1#2)))
    (λ v, call (Axvline v "black" 2)) ;;;
  call (Axvline (-1#2) "white" 2) ;;;
  call (Axvline (Qred (QofN (np_sum groupsN) - (1#2))) "white" 2) ;;;
  for_ (seq 0 (length groupsN)) (λ i,
    let lo := Qred (QofN (np_sum (slice 0 i groupsN)) - (1#2)) in
    let hi := Qred (QofN (np_sum (slice 0 (i + 1) groupsN)) - (1#2)) in
    let mid := Qred ((QofN (np_sum (slice 0 i groupsN))
                      + QofN (np_sum (slice 0 (i + 1) groupsN))) / 2 - (1#2)) in
    let bottom := Qred (QofN (shape0 data) - (1#2)) in
    call (Axvline hi "white" 3) ;;;
    c <- index groupsColors i ;;
    call (Plot [lo; hi] [-1#2; -1#2]%Q c 8) ;;;
    c <- index groupsColors i ;;
    call (Plot [lo; hi] [bottom; bottom] c 8) ;;;
    l <- index groupsLabels i ;;
    c <- index groupsColors i ;;
    if Qeq_bool groupRotation 0
    then call (Text mid (-1) l c "center" groupRotation)
    else call (Text mid (-1) l c "left" groupRotation)) ;;;
  ret (im, cbar).

Definition heatmap (heatmapData : DataFrame) (pC : option (gmap string string))
    (norm : bool) : Plt (AxesImage * ColorbarHandle) :=
  let genenames := symbol heatmapData in
  let data := values (iloc heatmapData 7 37) in      (* in FPKM *)
  let cbarlabel := "FPKM" in
  let '(data, cbarlabel) :=
    if norm
    then (values (apply_rows div_by_max (iloc heatmapData 7 37)), "norm. FPKM")
    else (data, cbarlabel) in
  let groupsN := [6; 5; 6; 7; 6]%nat in
  let pC := if_not pC pC_photoreceptors in
  groupsColors <- getitems pC ["r"; "u"; "s"; "m"; "l"] ;;
  let groupsLabels := ["Rods"; "UV"; "S"; "M"; "L"] in
  heatmap_general data genenames [] groupsN groupsColors groupsLabels cbarlabel 0.

Definition heatmap_Ogawa2021 (heatmapData : DataFrame) (pC : option (gmap string string))
    (pctPlot norm : bool) : Plt (AxesImage * ColorbarHandle) :=
  let genenames := symbol heatmapData in
  let cbarlabel := "avg." in
  let delta := 0%nat in
  let '(delta, cbarlabel) := if pctPlot then (9%nat, "%") else (delta, cbarlabel) in
  let data := values (iloc heatmapData (2 + delta) (10 + delta)) in
  let '(data, cbarlabel) :=
    if norm
    then (values (apply_rows div_by_max (iloc heatmapData (2 + delta) (10 + delta))),
          "norm. " +:+ cbarlabel)
    else (data, cbarlabel) in
  let groupsN := [1; 1; 1; 1; 1; 1; 1; 1]%nat in
  let pC := if_not pC pC_photoreceptors in
  groupsColors <- getitems pC ["r"; "u"; "s"; "m"; "l"; "m4"; "onBC"; "offBC"] ;;
  let groupsLabels := ["Rods"; "UV"; "S"; "M"; "L"; "M4"; "B$_{on}$"; "B$_{off}$"] in
  heatmap_general data genenames [] groupsN groupsColors groupsLabels cbarlabel 0.

Definition heatmap_Hoang2020 (heatmapData : DataFrame) (pC : option (gmap string string))
    (pctPlot norm : bool) : Plt (AxesImage * ColorbarHandle) :=
  let genenames := symbol heatmapData in
  let cbarlabel := "avg." in
  let delta := 0%nat in
  let '(delta, cbarlabel) := if pctPlot then (8%nat, "%") else (delta, cbarlabel) in
  let data := values (iloc heatmapData (2 + delta) (9 + delta)) in
  let '(data, cbarlabel) :=
    if norm
    then (values (apply_rows div_by_max (iloc heatmapData (2 + delta) (9 + delta))),
          "norm. " +:+ cbarlabel)
    else (data, cbarlabel) in
  let groupsN := [1; 1; 1; 1; 1; 1; 1]%nat in
  let pC := if_not pC pC_photoreceptors in
  groupsColors <- getitems pC ["r"; "u"; "s"; "m"; "m"; "m4"; "l"] ;;
  let groupsLabels := ["Rods"; "UV"; "S"; "M"; "M3"; "M4"; "L"] in
  heatmap_general data genenames [] groupsN groupsColors groupsLabels cbarlabel 0.

Definition heatmap_Sun2018 (heatmapData : DataFrame) (pC : option (gmap string string))
    (norm : bool) : Plt (AxesImage * ColorbarHandle) :=
  let genenames := symbol heatmapData in
  let data := values (iloc heatmapData 7 16) in      (* in cpm *)
  let cbarlabel := "cpm" in
  let '(data, cbarlabel) :=
    if norm
    then (values (apply_rows div_by_max (iloc heatmapData 7 16)), "norm. cpm")
    else (data, cbarlabel) in
  let groupsN := [4; 4]%nat in
  let pC := if_not pC pC_photoreceptors in
  groupsColors <- getitems pC ["r"; "m4"] ;;
  let groupsLabels := ["Rods"; "notRods"] in
  heatmap_general data genenames [] groupsN groupsColors groupsLabels cbarlabel 0.

Definition heatmap_Nerli2022 (heatmapData : DataFrame) (pC : option (gmap string string))
    (norm : bool) : Plt (AxesImage * ColorbarHandle) :=
  let genenames := symbol heatmapData in
  let data := values (iloc heatmapData 1 21) in      (* in FPKM *)
  let cbarlabel := "Counts (norm.)" in
  let '(data, cbarlabel) :=
    if norm
    then (values (apply_rows div_by_max (iloc heatmapData 1 21)), "norm. FPKM")
    else (data, cbarlabel) in
  let groupsN := [5; 5; 5; 5]%nat in
  let pC := if_not pC pC_Nerli2022 in
  groupsColors <- getitems pC ["RPC"; "PR"; "HC_AC"; "RGC"] ;;
  let groupsLabels := ["RPC"; "Photo"; "HC/AC"; "RGC"] in
  heatmap_general data genenames [] groupsN groupsColors groupsLabels cbarlabel 0.

Definition heatmap_Yoshimatsu2020 (heatmapData : DataFrame)
    (pC : option (gmap string string)) (norm : bool) : Plt (AxesImage * ColorbarHandle) :=
  let genenames := symbol heatmapData in
  let data := values (iloc heatmapData 1 9) in       (* in cpm *)
  let cbarlabel := "cpm" in
  let '(data, cbarlabel) :=
    if norm
    then (values (apply_rows div_by_max (iloc heatmapData 1 9)), "norm. cpm")
    else (data, cbarlabel) in
  let groupsN := [4; 4]%nat in
  let pC := if_not pC pC_Yoshimatsu2020 in
  groupsColors <- getitems pC ["u2"; "u"] ;;
  let groupsLabels := ["UV$_{non-sz}$"; "UV$_{sz}$"] in
  heatmap_general data genenames [] groupsN groupsColors groupsLabels cbarlabel 0.

Definition heatmap_Hoang2020_Ret (heatmapData : DataFrame)
    (pC : option (gmap string string)) (pctPlot norm : bool)
    : Plt (AxesImage * ColorbarHandle) :=
  let genenames := symbol heatmapData in
  let cbarlabel := "avg." in
  let delta := 0%nat in
  let '(delta, cbarlabel) := if pctPlot then (19%nat, "%") else (delta, cbarlabel) in
  let data := values (iloc heatmapData (2 + delta) (19 + delta)) in
  let '(data, cbarlabel) :=
    if norm
    then (values (apply_rows div_by_max (iloc heatmapData (2 + delta) (19 + delta))),
          "norm. " +:+ cbarlabel)
    else (data, cbarlabel) in
  let groupsN := [1; 1; 1; 1; 1; 1; 1; 1; 1; 1; 1; 1; 1; 1; 1; 1; 1]%nat in
  let pC := if_not pC pC_heatmap_Hoang2020_Ret in
  groupsColors <- getitems pC
    ["RPC"; "PRPC"; "Cones_larval"; "Cones_adult"; "Rods";
     "HC"; "BC_larval"; "BC_adult"; "AC_larval"; "ACgaba"; "ACgly";
     "RGC_larval"; "RGC_adult"; "MGi"; "MG1"; "MG2"; "MG3"] ;;
  let groupsLabels :=
    ["RPC"; "PRPC"; "C$_{larval}$"; "C$_{adult}$"; "R$_{ods}$";
     "HC"; "BC$_{larval}$"; "BC$_{adult}$"; "AC$_{larval}$"; "AC$_{GABA}$"; "AC$_{Gly}$";
     "RGC$_{larval}$"; "RGC$_{adult}$"; "MGi"; "MG1"; "MG2"; "MG3"] in
  heatmap_general data genenames [] groupsN groupsColors groupsLabels cbarlabel 45.

Definition heatmap_Hoang2020_PhotoDev (heatmapData : DataFrame)
    (pC : option (gmap string string)) (pctPlot norm : bool)
    : Plt (AxesImage * ColorbarHandle) :=
  let genenames := symbol heatmapData in
  let cbarlabel := "avg." in
  let delta := 0%nat in
  let '(delta, cbarlabel) := if pctPlot then (8%nat, "%") else (delta, cbarlabel) in
  let data := values (iloc heatmapData (2 + delta) (9 + delta)) in
  let '(data, cbarlabel) :=
    if norm
    then (values (apply_rows div_by_max (iloc heatmapData (2 + delta) (9 + delta))),
          "norm. " +:+ cbarlabel)
    else (data, cbarlabel) in
  let groupsN := [1; 1; 1; 1; 1; 1; 1]%nat in
  let pC := if_not pC pC_Hoang2020_PhotoDev in
  groupsColors <- getitems pC
    ["RPC"; "PRP";
     "Cle"; "Clm"; "Cll";
     "C"; "R"] ;;
  let groupsLabels :=
    ["RPC"; "PRP"; "Cone$_{larval-early}$"; "Cone$_{larval-mid}$";
     "Cone$_{larval-late}$"; "Cone"; "Rod"] in
  heatmap_general data genenames [] groupsN groupsColors groupsLabels cbarlabel 45.

Definition heatmap_Hoang2020_PhotoDev_withcontaminatedlarvalrods (heatmapData : DataFrame)
    (pC : option (gmap string string)) (pctPlot norm : bool)
    : Plt (AxesImage * ColorbarHandle) :=
  let genenames := symbol heatmapData in
  let cbarlabel := "avg." in
  let delta := 0%nat in
  let '(delta, cbarlabel) := if pctPlot then (9%nat, "%") else (delta, cbarlabel) in
  let data := values (iloc heatmapData (2 + delta) (10 + delta)) in
  let '(data, cbarlabel) :=
    if norm
    then (values (apply_rows div_by_max (iloc heatmapData (2 + delta) (10 + delta))),
          "norm. " +:+ cbarlabel)
    else (data, cbarlabel) in
  let groupsN := [1; 1; 1; 1; 1; 1; 1; 1]%nat in
  let pC := if_not pC pC_Hoang2020_PhotoDev_withcontaminatedlarvalrods in
  groupsColors <- getitems pC
    ["RPC"; "PRP";
     "Cle"; "Clm"; "Cll";
     "C";
     "Rll"; "R"] ;;
  let groupsLabels :=
    ["RPC"; "PRPC"; "Cone$_{larval-early}$"; "Cone$_{larval-mid}$";
     "Cone$_{larval-late}$"; "Cone"; "Rod$_{larval-late}$"; "Rod"] in
  heatmap_general data genenames [] groupsN groupsColors groupsLabels cbarlabel 45.

Definition heatmap_Xu2020_RetDev (heatmapData : DataFrame)
    (pC : option (gmap string string)) (pctPlot norm : bool)
    : Plt (AxesImage * ColorbarHandle) :=
  let genenames := symbol heatmapData in
  let cbarlabel := "avg." in
  let delta := 0%nat in
  let '(delta, cbarlabel) := if pctPlot then (81%nat, "%") else (delta, cbarlabel) in
  let data := values (iloc heatmapData (2 + delta) (82 + delta)) in
  let '(data, cbarlabel) :=
    if norm
    then (values (apply_rows div_by_max (iloc heatmapData (2 + delta) (82 + delta))),
          "norm. " +:+ cbarlabel)
    else (data, cbarlabel) in
  let groupsN := [
    1; 1; 1; 1; 1; 1; 1; 1; 1; 1;
    1; 1; 1; 1; 1; 1; 1; 1; 1; 1;
    1; 1; 1; 1; 1; 1; 1; 1; 1; 1;
    1; 1; 1; 1; 1; 1; 1; 1; 1; 1;
    1; 1; 1; 1; 1; 1; 1; 1; 1; 1;
    1; 1; 1; 1; 1; 1; 1; 1; 1; 1;
    1; 1; 1; 1; 1; 1; 1; 1; 1; 1;
    1; 1; 1; 1; 1; 1; 1; 1; 1; 1
  ]%nat in
  let pC := if_not pC pC_Xu2020_RetDev in
  groupsColors <- getitems pC names_Xu2020_RetDev ;;
  let groupsLabels := names_Xu2020_RetDev in
  heatmap_general data genenames [] groupsN groupsColors groupsLabels cbarlabel 45.

(** ** The wrappers as one family

    The module is a flat list of functions that differ in their constants
    only.  [BarProfile] and [HeatmapProfile] gather the constants of one
    function; [bar_generic] and [heatmap_generic] are the routine they all
    repeat.  [run_bar_generic] and [run_heatmap_generic] below show that each
    function of the module is the routine at its profile. *)

Inductive BarWrapper : Type :=
  | PlotBars
  | PlotBars_Ogawa2021
  | PlotBars_Hoang2020
  | PlotBars_Sun2018
  | PlotBars_Hoang2020_Ret
  | PlotBars_Hoang2020_PhotoDev
  | PlotBars_Hoang2020_PhotoDev_withcontaminatedlarvalrods
  | PlotBars_Xu2020_RetDev
  | PlotBars_Nerli2022
  | PlotBars_Yoshimatsu2020.

Inductive HeatmapWrapper : Type :=
  | Heatmap
  | Heatmap_Ogawa2021
  | Heatmap_Hoang2020
  | Heatmap_Sun2018
  | Heatmap_Nerli2022
  | Heatmap_Yoshimatsu2020
  | Heatmap_Hoang2020_Ret
  | Heatmap_Hoang2020_PhotoDev
  | Heatmap_Hoang2020_PhotoDev_withcontaminatedlarvalrods
  | Heatmap_Xu2020_RetDev.

(** A call of a bar wrapper; [pctPlot] reaches the functions that take it. *)
Definition run_bar (w : BarWrapper) (barData : DataFrame) (geneSymbol : string)
    (pC : option (gmap string string)) (pctPlot : bool) : Plt BarContainer :=
  match w with
  | PlotBars => plotBars barData geneSymbol pC
  | PlotBars_Ogawa2021 => plotBars_Ogawa2021 barData geneSymbol pC pctPlot
  | PlotBars_Hoang2020 => plotBars_Hoang2020 barData geneSymbol pC pctPlot
  | PlotBars_Sun2018 => plotBars_Sun2018 barData geneSymbol pC
  | PlotBars_Hoang2020_Ret => plotBars_Hoang2020_Ret barData geneSymbol pC pctPlot
  | PlotBars_Hoang2020_PhotoDev => plotBars_Hoang2020_PhotoDev barData geneSymbol pC pctPlot
  | PlotBars_Hoang2020_PhotoDev_withcontaminatedlarvalrods =>
      plotBars_Hoang2020_PhotoDev_withcontaminatedlarvalrods barData geneSymbol pC pctPlot
  | PlotBars_Xu2020_RetDev => plotBars_Xu2020_RetDev barData geneSymbol pC pctPlot
  | PlotBars_Nerli2022 => plotBars_Nerli2022 barData geneSymbol pC
  | PlotBars_Yoshimatsu2020 => plotBars_Yoshimatsu2020 barData geneSymbol pC
  end.

(** A call of a heatmap wrapper. *)
Definition run_heatmap (w : HeatmapWrapper) (heatmapData : DataFrame)
    (pC : option (gmap string string)) (pctPlot norm : bool)
    : Plt (AxesImage * ColorbarHandle) :=
  match w with
  | Heatmap => heatmap heatmapData pC norm
  | Heatmap_Ogawa2021 => heatmap_Ogawa2021 heatmapData pC pctPlot norm
  | Heatmap_Hoang2020 => heatmap_Hoang2020 heatmapData pC pctPlot norm
  | Heatmap_Sun2018 => heatmap_Sun2018 heatmapData pC norm
  | Heatmap_Nerli2022 => heatmap_Nerli2022 heatmapData pC norm
  | Heatmap_Yoshimatsu2020 => heatmap_Yoshimatsu2020 heatmapData pC norm
  | Heatmap_Hoang2020_Ret => heatmap_Hoang2020_Ret heatmapData pC pctPlot norm
  | Heatmap_Hoang2020_PhotoDev => heatmap_Hoang2020_PhotoDev heatmapData pC pctPlot norm
  | Heatmap_Hoang2020_PhotoDev_withcontaminatedlarvalrods =>
      heatmap_Hoang2020_PhotoDev_withcontaminatedlarvalrods heatmapData pC pctPlot norm
  | Heatmap_Xu2020_RetDev => heatmap_Xu2020_RetDev heatmapData pC pctPlot norm
  end.

Record BarProfile : Type := mk_BarProfile {
  bp_n : list Q;                         (* bar positions [n] *)
  bp_start : nat;                        (* [h_start] *)
  bp_end : nat;                          (* [h_end] *)
  bp_pC : gmap string string;            (* default palette *)
  bp_keys : list string;                 (* keys of [barColors], in order *)
  bp_format : string → Plt unit          (* the [formatBarPlot] of the wrapper *)
}.

Definition bar_generic (p : BarProfile) (barData : DataFrame) (geneSymbol : string)
    (pC : option (gmap string string)) : Plt BarContainer :=
  h <- iloc_row barData (bp_start p) (bp_end p) ;;
  barColors <- getitems (if_not pC (bp_pC p)) (bp_keys p) ;;
  pH <- ax_bar (bp_n p) h barColors ;;
  bp_format p geneSymbol ;;;
  ret pH.

(** The number of copies of each key in a colour list. *)
Definition repeat_keys (groups : list (string * nat)) : list string :=
  concat (map (λ g, replicate g.2 g.1) groups).

Definition bar_profile (w : BarWrapper) (pctPlot : bool) : BarProfile :=
  let delta (d : nat) := if pctPlot then d else 0%nat in
  match w with
  | PlotBars =>
      mk_BarProfile
        (arange 1 7 ++ np_add 7 (arange 1 6) ++ np_add 13 (arange 1 7)
           ++ np_add 20 (arange 1 8) ++ np_add 28 (arange 1 7))
        7 37 pC_photoreceptors
        (repeat_keys [("r", 6); ("u", 5); ("s", 6); ("m", 7); ("l", 6)]%nat)
        formatBarPlot
  | PlotBars_Ogawa2021 =>
      mk_BarProfile (arange 1 9) (2 + delta 9) (10 + delta 9) pC_photoreceptors
        ["r"; "u"; "s"; "m"; "l"; "m4"; "onBC"; "offBC"]
        (λ g, formatBarPlot_Ogawa2021 g pctPlot)
  | PlotBars_Hoang2020 =>
      mk_BarProfile (arange 1 8) (2 + delta 8) (9 + delta 8) pC_photoreceptors
        ["r"; "u"; "s"; "m"; "m"; "m4"; "l"]
        (λ g, formatBarPlot_Hoang2020 g pctPlot)
  | PlotBars_Sun2018 =>
      mk_BarProfile (arange 1 5 ++ np_add 5 (arange 1 5)) 7 16 pC_photoreceptors
        (repeat_keys [("r", 4); ("m4", 4)]%nat)
        formatBarPlot_Sun2018
  | PlotBars_Hoang2020_Ret =>
      mk_BarProfile (arange 1 18) (2 + delta 19) (19 + delta 19) pC_plotBars_Hoang2020_Ret
        ["RPC"; "PRPC"; "Cones_larval"; "Cones_adult"; "Rods"; "HC"; "BC_larval";
         "BC_adult"; "AC_larval"; "ACgaba"; "ACgly"; "RGC_larval"; "RGC_adult";
         "MGi"; "MG1"; "MG2"; "MG3"]
        (λ g, formatBarPlot_Hoang2020_Ret g pctPlot)
  | PlotBars_Hoang2020_PhotoDev =>
      mk_BarProfile (arange 1 8) (2 + delta 8) (9 + delta 8) pC_Hoang2020_PhotoDev
        ["RPC"; "PRP"; "Cle"; "Clm"; "Cll"; "C"; "R"]
        (λ g, formatBarPlot_Hoang2020_PhotoDev g pctPlot)
  | PlotBars_Hoang2020_PhotoDev_withcontaminatedlarvalrods =>
      mk_BarProfile (arange 1 9) (2 + delta 9) (10 + delta 9)
        pC_Hoang2020_PhotoDev_withcontaminatedlarvalrods
        ["RPC"; "PRP"; "Cle"; "Clm"; "Cll"; "C"; "Rll"; "R"]
        (λ g, formatBarPlot_Hoang2020_PhotoDev g pctPlot)
  | PlotBars_Xu2020_RetDev =>
      mk_BarProfile (arange 1 81) (2 + delta 82) (82 + delta 82) pC_Xu2020_RetDev
        names_Xu2020_RetDev
        (λ g, formatBarPlot_Xu2020_RetDev g pctPlot)
  | PlotBars_Nerli2022 =>
      mk_BarProfile
        (arange 0 5 ++ np_add (9#2) (arange 1 6) ++ np_add 10 (arange 1 6)
           ++ np_add (31#2) (arange 1 6))
        1 21 pC_Nerli2022
        (repeat_keys [("RPC", 5); ("PR", 5); ("HC_AC", 5); ("RGC", 5)]%nat)
        formatBarPlot_Nerli2022
  | PlotBars_Yoshimatsu2020 =>
      mk_BarProfile (arange 1 5 ++ np_add 5 (arange 1 5)) 1 9 pC_Yoshimatsu2020
        (repeat_keys [("u2", 4); ("u", 4)]%nat)
        formatBarPlot_Yoshimatsu2020
  end.

Record HeatmapProfile : Type := mk_HeatmapProfile {
  hp_start : nat;                        (* first column of the slice *)
  hp_end : nat;                          (* end of the slice *)
  hp_unit : string;                      (* [cbarlabel] of the raw values *)
  hp_norm : string;                      (* [cbarlabel] when [norm] *)
  hp_groupsN : list nat;
  hp_pC : gmap string string;            (* default palette *)
  hp_keys : list string;                 (* keys of [groupsColors], in order *)
  hp_groupsLabels : list string;
  hp_groupRotation : Q
}.

(** The number of columns in the slice of a table of the dataset. *)
Definition hp_columnCount (p : HeatmapProfile) : nat := hp_end p - hp_start p.

Definition heatmap_generic (p : HeatmapProfile) (heatmapData : DataFrame)
    (pC : option (gmap string string)) (norm : bool) : Plt (AxesImage * ColorbarHandle) :=
  let genenames := symbol heatmapData in
  let sliced := iloc heatmapData (hp_start p) (hp_end p) in
  let data := if norm then values (apply_rows div_by_max sliced) else values sliced in
  let cbarlabel := if norm then hp_norm p else hp_unit p in
  groupsColors <- getitems (if_not pC (hp_pC p)) (hp_keys p) ;;
  heatmap_general data genenames [] (hp_groupsN p) groupsColors (hp_groupsLabels p)
    cbarlabel (hp_groupRotation p).

Definition heatmap_profile (w : HeatmapWrapper) (pctPlot : bool) : HeatmapProfile :=
  let delta (d : nat) := if pctPlot then d else 0%nat in
  let unit_ := if pctPlot then "%" else "avg." in
  match w with
  | Heatmap =>
      mk_HeatmapProfile 7 37 "FPKM" "norm. FPKM" [6; 5; 6; 7; 6]%nat pC_photoreceptors
        ["r"; "u"; "s"; "m"; "l"] ["Rods"; "UV"; "S"; "M"; "L"] 0
  | Heatmap_Ogawa2021 =>
      mk_HeatmapProfile (2 + delta 9) (10 + delta 9) unit_ ("norm. " +:+ unit_)
        (replicate 8 1%nat) pC_photoreceptors
        ["r"; "u"; "s"; "m"; "l"; "m4"; "onBC"; "offBC"]
        ["Rods"; "UV"; "S"; "M"; "L"; "M4"; "B$_{on}$"; "B$_{off}$"] 0
  | Heatmap_Hoang2020 =>
      mk_HeatmapProfile (2 + delta 8) (9 + delta 8) unit_ ("norm. " +:+ unit_)
        (replicate 7 1%nat) pC_photoreceptors
        ["r"; "u"; "s"; "m"; "m"; "m4"; "l"]
        ["Rods"; "UV"; "S"; "M"; "M3"; "M4"; "L"] 0
  | Heatmap_Sun2018 =>
      mk_HeatmapProfile 7 16 "cpm" "norm. cpm" [4; 4]%nat pC_photoreceptors
        ["r"; "m4"] ["Rods"; "notRods"] 0
  | Heatmap_Nerli2022 =>
      mk_HeatmapProfile 1 21 "Counts (norm.)" "norm. FPKM" [5; 5; 5; 5]%nat pC_Nerli2022
        ["RPC"; "PR"; "HC_AC"; "RGC"] ["RPC"; "Photo"; "HC/AC"; "RGC"] 0
  | Heatmap_Yoshimatsu2020 =>
      mk_HeatmapProfile 1 9 "cpm" "norm. cpm" [4; 4]%nat pC_Yoshimatsu2020
        ["u2"; "u"] ["UV$_{non-sz}$"; "UV$_{sz}$"] 0
  | Heatmap_Hoang2020_Ret =>
      mk_HeatmapProfile (2 + delta 19) (19 + delta 19) unit_ ("norm. " +:+ unit_)
        (replicate 17 1%nat) pC_heatmap_Hoang2020_Ret
        ["RPC"; "PRPC"; "Cones_larval"; "Cones_adult"; "Rods"; "HC"; "BC_larval";
         "BC_adult"; "AC_larval"; "ACgaba"; "ACgly"; "RGC_larval"; "RGC_adult";
         "MGi"; "MG1"; "MG2"; "MG3"]
        ["RPC"; "PRPC"; "C$_{larval}$"; "C$_{adult}$"; "R$_{ods}$"; "HC"; "BC$_{larval}$";
         "BC$_{adult}$"; "AC$_{larval}$"; "AC$_{GABA}$"; "AC$_{Gly}$"; "RGC$_{larval}$";
         "RGC$_{adult}$"; "MGi"; "MG1"; "MG2"; "MG3"] 45
  | Heatmap_Hoang2020_PhotoDev =>
      mk_HeatmapProfile (2 + delta 8) (9 + delta 8) unit_ ("norm. " +:+ unit_)
        (replicate 7 1%nat) pC_Hoang2020_PhotoDev
        ["RPC"; "PRP"; "Cle"; "Clm"; "Cll"; "C"; "R"]
        ["RPC"; "PRP"; "Cone$_{larval-early}$"; "Cone$_{larval-mid}$";
         "Cone$_{larval-late}$"; "Cone"; "Rod"] 45
  | Heatmap_Hoang2020_PhotoDev_withcontaminatedlarvalrods =>
      mk_HeatmapProfile (2 + delta 9) (10 + delta 9) unit_ ("norm. " +:+ unit_)
        (replicate 8 1%nat) pC_Hoang2020_PhotoDev_withcontaminatedlarvalrods
        ["RPC"; "PRP"; "Cle"; "Clm"; "Cll"; "C"; "Rll"; "R"]
        ["RPC"; "PRPC"; "Cone$_{larval-early}$"; "Cone$_{larval-mid}$";
         "Cone$_{larval-late}$"; "Cone"; "Rod$_{larval-late}$"; "Rod"] 45
  | Heatmap_Xu2020_RetDev =>
      mk_HeatmapProfile (2 + delta 81) (82 + delta 81) unit_ ("norm. " +:+ unit_)
        (replicate 80 1%nat) pC_Xu2020_RetDev
        names_Xu2020_RetDev names_Xu2020_RetDev 45
  end.

(** ** Specification vocabulary *)

(** The first key of [keys] that the palette lacks: the key of the
    [KeyError] that building the colour list raises. *)
Fixpoint first_missing (pC : gmap string string) (keys : list string) : option string :=
  match keys with
  | [] => None
  | k :: keys' =>
      match pC !! k with
      | Some _ => first_missing pC keys'
      | None => Some k
      end
  end.

(** The palette has every key of [keys]. *)
Definition has_keys (pC : gmap string string) (keys : list string) : Prop :=
  first_missing pC keys = None.

(** The colours a palette gives to a list of keys it has. *)
Definition colors_of (pC : gmap string string) (keys : list string) : list string :=
  map (λ k, default "" (pC !! k)) keys.

(** The calls a computation makes on a fresh surface. *)
Definition calls_of {A} (m : Plt A) : list Call := (m []).2.

(** The calls of a [formatBarPlot]: they cannot fail. *)
Definition draws_only (m : Plt unit) : Prop :=
  ∀ log, m log = (inr tt, log ++ calls_of m).

(** A table with one gene and [w] columns whose cells are 0, 1, 2, ... *)
Definition one_row (w : nat) : DataFrame :=
  {| symbol := ["gene"]; width := w; cells := [map QofN (seq 0 w)] |}.

(** A table of [w] columns from which the gene asked for is absent. *)
Definition no_row (w : nat) : DataFrame :=
  {| symbol := []; width := w; cells := [] |}.

(** A table of the 37 columns [heatmap] reads (seven columns of text, then
    thirty values) with one gene whose values are all negative. *)
Definition negative_row : DataFrame :=
  {| symbol := ["gene"]; width := 37;
     cells := [replicate 7 0%Q ++ [-2; -1]%Q ++ replicate 28 (-2)%Q] |}.

(** The heatmap of the dataset of a bar plot. *)
Definition heatmap_of (w : BarWrapper) : HeatmapWrapper :=
  match w with
  | PlotBars => Heatmap
  | PlotBars_Ogawa2021 => Heatmap_Ogawa2021
  | PlotBars_Hoang2020 => Heatmap_Hoang2020
  | PlotBars_Sun2018 => Heatmap_Sun2018
  | PlotBars_Hoang2020_Ret => Heatmap_Hoang2020_Ret
  | PlotBars_Hoang2020_PhotoDev => Heatmap_Hoang2020_PhotoDev
  | PlotBars_Hoang2020_PhotoDev_withcontaminatedlarvalrods =>
      Heatmap_Hoang2020_PhotoDev_withcontaminatedlarvalrods
  | PlotBars_Xu2020_RetDev => Heatmap_Xu2020_RetDev
  | PlotBars_Nerli2022 => Heatmap_Nerli2022
  | PlotBars_Yoshimatsu2020 => Heatmap_Yoshimatsu2020
  end.

(** * Properties *)

(** ** The wrappers are the generic routines at their profiles *)

Lemma run_bar_generic w barData geneSymbol pC pctPlot :
  run_bar w barData geneSymbol pC pctPlot
  = bar_generic (bar_profile w pctPlot) barData geneSymbol pC.
Proof. destruct w, pctPlot; reflexivity. Qed.

Lemma run_heatmap_generic w heatmapData pC pctPlot norm :
  run_heatmap w heatmapData pC pctPlot norm
  = heatmap_generic (heatmap_profile w pctPlot) heatmapData pC norm.
Proof. destruct w, pctPlot, norm; reflexivity. Qed.

(** ** Palettes and colour lists *)

Lemma getitems_spec pC keys log :
  getitems pC keys log =
  match first_missing pC keys with
  | Some k => (inl (KeyError k), log)
  | None => (inr (colors_of pC keys), log)
  end.
Proof.
  induction keys as [|k keys IH]; [reflexivity|].
  cbn [getitems first_missing]. unfold bind, getitem.
  destruct (pC !! k) as [v|] eqn:Hk; [|reflexivity].
  unfold ret at 1. rewrite IH.
  destruct (first_missing pC keys); [reflexivity|].
  unfold ret, colors_of. cbn [map]. rewrite Hk. reflexivity.
Qed.

Lemma has_keys_Forall pC keys :
  has_keys pC keys ↔ Forall (λ k, is_Some (pC !! k)) keys.
Proof.
  unfold has_keys. induction keys as [|k keys IH]; cbn [first_missing].
  - split; [constructor | reflexivity].
  - destruct (pC !! k) eqn:Hk.
    + rewrite IH. split.
      * intros H. constructor; [rewrite Hk; eauto | exact H].
      * intros H. inversion H; assumption.
    + split; [discriminate|]. intros H. inversion H as [|? ? [v Hv]]. congruence.
Qed.


Lemma length_colors_of pC keys : length (colors_of pC keys) = length keys.
Proof. unfold colors_of. by rewrite length_map. Qed.

Lemma if_not_truthy m d : m ≠ ∅ → if_not (Some m) d = m.
Proof. intros H. unfold if_not, truthy. rewrite bool_decide_eq_false_2; done. Qed.

Lemma if_not_empty d : if_not (Some ∅) d = d.
Proof. reflexivity. Qed.

(** ** Slices, loops and broadcasting *)

Lemma length_slice {A} a b (l : list A) :
  length (slice a b l) = (Nat.min (length l) b - a)%nat.
Proof. unfold slice. rewrite length_take, length_drop. lia. Qed.

Lemma slice_short {A} a b (l : list A) : (length l ≤ b)%nat → slice a b l = drop a l.
Proof. intros H. unfold slice. apply take_ge. rewrite length_drop. lia. Qed.

Lemma lookup_slice {A} (l : list A) a b i :
  (i < b - a)%nat → slice a b l !! i = l !! (a + i)%nat.
Proof. intros H. unfold slice. rewrite lookup_take_lt by done. apply lookup_drop. Qed.

Lemma for_calls {A} (l : list A) (f : A → Call) log :
  for_ l (λ x, call (f x)) log = (inr tt, log ++ map f l).
Proof.
  revert log. induction l as [|x l IH]; intros log; cbn [for_ map].
  - unfold ret. by rewrite app_nil_r.
  - unfold bind, call at 1. rewrite IH. by rewrite <- app_assoc.
Qed.

Lemma for_ok {A} (l : list A) (body : A → Plt unit) :
  (∀ x, x ∈ l → ∀ log, ∃ cs, body x log = (inr tt, log ++ cs)) →
  ∀ log, ∃ cs, for_ l body log = (inr tt, log ++ cs).
Proof.
  induction l as [|x l IH]; intros Hb log; cbn [for_].
  - exists []. unfold ret. by rewrite app_nil_r.
  - unfold bind. destruct (Hb x (list_elem_of_here _ _) log) as [cs1 ->].
    destruct (IH (λ y Hy, Hb y (list_elem_of_further _ _ _ Hy)) (log ++ cs1)) as [cs2 ->].
    exists (cs1 ++ cs2). by rewrite app_assoc.
Qed.

Lemma broadcast_same n : broadcast n n = Some n.
Proof. unfold broadcast. by rewrite Nat.eqb_refl. Qed.

Lemma broadcast_to_same {A} (l : list A) : broadcast_to (length l) l = l.
Proof. destruct l as [|x [|y l]]; reflexivity. Qed.

Lemma length_broadcast_to {A B} (x : list A) (y : list B) m :
  broadcast (length x) (length y) = Some m →
  length (broadcast_to m x) = m ∧ length (broadcast_to m y) = m.
Proof.
  unfold broadcast. intros H.
  destruct (Nat.eqb_spec (length x) (length y)) as [E|NE].
  { injection H as <-. rewrite broadcast_to_same. split; [done|].
    rewrite E. by rewrite broadcast_to_same. }
  destruct (Nat.eqb_spec (length x) 1) as [E1|NE1].
  { injection H as <-. rewrite broadcast_to_same. split; [|done].
    destruct x as [|a [|? ?]]; try discriminate. cbn. by rewrite length_replicate. }
  destruct (Nat.eqb_spec (length y) 1) as [E2|NE2]; [|discriminate].
  injection H as <-. rewrite broadcast_to_same. split; [done|].
  destruct y as [|a [|? ?]]; try discriminate. cbn. by rewrite length_replicate.
Qed.

Lemma length_cycle n color : length (cycle n color) = n.
Proof. unfold cycle. by rewrite length_map, length_seq. Qed.

Lemma cycle_same color : cycle (length color) color = color.
Proof.
  apply list_eq. intros i. unfold cycle. rewrite list_lookup_fmap.
  destruct (decide (i < length color)%nat) as [Hi|Hi].
  - rewrite lookup_seq_lt by done. cbn. rewrite Nat.mod_small by done.
    destruct (lookup_lt_is_Some_2 color i Hi) as [c ->]. reflexivity.
  - rewrite lookup_seq_ge by lia. cbn. symmetry. apply lookup_ge_None. lia.
Qed.

(** ** Formatting only draws *)

Lemma draws_only_call c : draws_only (call c).
Proof. intros log. reflexivity. Qed.

Lemma draws_only_ret : draws_only (ret tt).
Proof. intros log. unfold ret, calls_of. cbn. by rewrite app_nil_r. Qed.

Lemma draws_only_seq m1 m2 :
  draws_only m1 → draws_only m2 → draws_only (m1 ;;; m2).
Proof.
  intros H1 H2 log. unfold calls_of, bind.
  rewrite (H1 log), (H1 []), (H2 (log ++ _)), (H2 ([] ++ _)).
  cbn. by rewrite app_assoc.
Qed.

Lemma draws_only_when b m : draws_only m → draws_only (when_ b m).
Proof. destruct b; [done | intros _; apply draws_only_ret]. Qed.

Create HintDb draws.

#[local] Hint Resolve draws_only_call draws_only_ret draws_only_seq draws_only_when : draws.

Lemma draws_only_defaultFonts : draws_only defaultFonts.
Proof. unfold defaultFonts. auto 10 with draws. Qed.

#[local] Hint Resolve draws_only_defaultFonts : draws.

Lemma bar_profile_draws_only w pctPlot geneSymbol :
  draws_only (bp_format (bar_profile w pctPlot) geneSymbol).
Proof.
  destruct w; cbn [bp_format bar_profile];
    unfold formatBarPlot, formatBarPlot_Ogawa2021, formatBarPlot_Hoang2020,
      formatBarPlot_Sun2018, formatBarPlot_Hoang2020_Ret, formatBarPlot_Hoang2020_PhotoDev,
      formatBarPlot_Xu2020_RetDev, formatBarPlot_Nerli2022, formatBarPlot_Yoshimatsu2020;
    auto 12 with draws.
Qed.

(** ** What a call of a wrapper does *)

(** A bar wrapper, step by step: the row index, the colour list, the
    broadcast in [ax.bar], the formatting. *)
Lemma bar_generic_run p barData geneSymbol pC log :
  draws_only (bp_format p geneSymbol) →
  bar_generic p barData geneSymbol pC log =
  match cells barData !! 0%nat with
  | None => (inl IndexError, log)
  | Some r =>
      let pal := if_not pC (bp_pC p) in
      let h := slice (bp_start p) (bp_end p) r in
      match first_missing pal (bp_keys p) with
      | Some k => (inl (KeyError k), log)
      | None =>
          match broadcast (length (bp_n p)) (length h) with
          | None => (inl (ValueError shape_mismatch), log)
          | Some m =>
              (inr (zip (zip (broadcast_to m (bp_n p)) (broadcast_to m h))
                        (cycle m (colors_of pal (bp_keys p)))),
               log ++ Bar (bp_n p) h (colors_of pal (bp_keys p))
                   :: calls_of (bp_format p geneSymbol))
          end
      end
  end.
Proof.
  intros Hf. unfold bar_generic, bind, iloc_row.
  destruct (cells barData !! 0%nat) as [r|]; [|reflexivity].
  unfold ret at 1. cbn zeta. rewrite getitems_spec.
  destruct (first_missing _ _); [reflexivity|].
  unfold ax_bar. destruct (broadcast _ _); [|reflexivity].
  unfold bind, call, ret. rewrite Hf. by rewrite <- app_assoc.
Qed.

(** A row wide enough for the slice, a palette with the keys, and a slice as
    wide as the positions: the bars are drawn, one per column. *)
Lemma bar_generic_full p barData geneSymbol pC log r :
  let pal := if_not pC (bp_pC p) in
  let h := slice (bp_start p) (bp_end p) r in
  let colors := colors_of pal (bp_keys p) in
  draws_only (bp_format p geneSymbol) →
  cells barData !! 0%nat = Some r →
  (bp_end p ≤ length r)%nat →
  (bp_end p - bp_start p)%nat = length (bp_n p) →
  length (bp_keys p) = length (bp_n p) →
  has_keys pal (bp_keys p) →
  bar_generic p barData geneSymbol pC log
  = (inr (zip (zip (bp_n p) h) colors),
     log ++ Bar (bp_n p) h colors :: calls_of (bp_format p geneSymbol)).
Proof.
  intros pal h colors Hf Hr Hlen Hw Hc Hk.
  rewrite bar_generic_run by exact Hf. rewrite Hr. cbv zeta. fold pal h colors.
  rewrite Hk.
  assert (length h = length (bp_n p)) as Hh.
  { subst h. rewrite length_slice. lia. }
  rewrite Hh, broadcast_same.
  rewrite broadcast_to_same. rewrite <- Hh at 1. rewrite broadcast_to_same.
  replace (length (bp_n p)) with (length colors)
    by (subst colors; rewrite length_colors_of; exact Hc).
  by rewrite cycle_same.
Qed.

(** [heatmap_general] cannot fail when every group has a colour and a
    label; it starts with the image of the block, or of the placeholder
    when the block has no row. *)
Lemma heatmap_general_run data row_labels col_labels groupsN groupsColors groupsLabels
    cbarlabel groupRotation log :
  (length groupsN ≤ length groupsColors)%nat →
  (length groupsN ≤ length groupsLabels)%nat →
  let shown := if (shape0 data =? 0)%nat then np_ones 2 (shape1 data) else data in
  let labels := if (shape0 data =? 0)%nat then ["not found"; "not found"] else row_labels in
  ∃ rest,
    heatmap_general data row_labels col_labels groupsN groupsColors groupsLabels
      cbarlabel groupRotation log
    = (inr (shown, cbarlabel),
       log ++ [Imshow shown "bone"; Colorbar "horizontal"; CbarSetYlabel cbarlabel;
               SetXticks (arange 0 (QofN (shape1 shown))) false;
               SetYticks (arange 0 (QofN (shape0 shown)));
               SetXticklabels col_labels; SetYticklabels labels] ++ rest).
Proof.
  intros HC HL shown labels. unfold heatmap_general.
  replace (if (shape0 data =? 0)%nat
           then (np_ones 2 (shape1 data), ["not found"; "not found"])
           else (data, row_labels)) with (shown, labels)
    by (subst shown labels; destruct (shape0 data =? 0)%nat; reflexivity).
  generalize shown labels. clear shown labels. intros shown labels.
  unfold bind at 1 2 3 4 5 6 7 8 9 10. unfold call at 1 2 3 4 5 6 7 8 9 10.
  unfold bind at 1. rewrite for_calls.
  unfold bind at 1. rewrite for_calls.
  unfold bind at 1 2, call at 1 2.
  unfold bind at 1.
  match goal with |- context [for_ ?l ?body ?lg] =>
    destruct (for_ok l body) with (log := lg) as [cs Hcs] end.
  - intros i Hi lg. apply elem_of_seq in Hi as [_ Hi]. cbn in Hi.
    assert (is_Some (groupsColors !! i)) as [c Hc] by (apply lookup_lt_is_Some; lia).
    assert (is_Some (groupsLabels !! i)) as [l Hl] by (apply lookup_lt_is_Some; lia).
    unfold bind, call, index, ret. rewrite Hc, Hl.
    destruct (Qeq_bool groupRotation 0); eexists; rewrite <- !app_assoc; reflexivity.
  - rewrite Hcs. unfold ret. eexists. rewrite <- !app_assoc. cbn [app]. reflexivity.
Qed.

Lemma heatmap_generic_run p heatmapData pC norm log :
  heatmap_generic p heatmapData pC norm log =
  let pal := if_not pC (hp_pC p) in
  let sliced := iloc heatmapData (hp_start p) (hp_end p) in
  match first_missing pal (hp_keys p) with
  | Some k => (inl (KeyError k), log)
  | None =>
      heatmap_general
        (if norm then values (apply_rows div_by_max sliced) else values sliced)
        (symbol heatmapData) [] (hp_groupsN p) (colors_of pal (hp_keys p))
        (hp_groupsLabels p) (if norm then hp_norm p else hp_unit p)
        (hp_groupRotation p) log
  end.
Proof.
  unfold heatmap_generic, bind. rewrite getitems_spec.
  destruct (first_missing _ _); reflexivity.
Qed.

(** ** The constant tables *)

(** Every default palette has the keys its wrapper looks up. *)
Lemma bar_profile_default_keys w pctPlot :
  has_keys (bp_pC (bar_profile w pctPlot)) (bp_keys (bar_profile w pctPlot)).
Proof. destruct w, pctPlot; vm_compute; reflexivity. Qed.

Lemma heatmap_profile_default_keys w pctPlot :
  has_keys (hp_pC (heatmap_profile w pctPlot)) (hp_keys (heatmap_profile w pctPlot)).
Proof. destruct w, pctPlot; vm_compute; reflexivity. Qed.

(** Every heatmap wrapper has one colour and one label per group. *)
Lemma heatmap_profile_lengths w pctPlot :
  let p := heatmap_profile w pctPlot in
  length (hp_keys p) = length (hp_groupsN p) ∧
  length (hp_groupsLabels p) = length (hp_groupsN p).
Proof. destruct w, pctPlot; vm_compute; split; reflexivity. Qed.

(** Every bar wrapper pairs as many colours as positions. *)
Lemma bar_profile_lengths w pctPlot :
  let p := bar_profile w pctPlot in
  length (bp_keys p) = length (bp_n p).
Proof. destruct w, pctPlot; vm_compute; reflexivity. Qed.

(** All bar wrappers but [plotBars_Sun2018] slice as many columns as they
    have positions. *)
Lemma bar_profile_slice_width w pctPlot :
  w ≠ PlotBars_Sun2018 →
  let p := bar_profile w pctPlot in
  (bp_end p - bp_start p)%nat = length (bp_n p).
Proof. intros Hw. destruct w, pctPlot; try done; vm_compute; reflexivity. Qed.

(** All heatmap wrappers but [heatmap_Sun2018] have group sizes that add up
    to the width of their slice. *)
Lemma heatmap_profile_partition w pctPlot :
  w ≠ Heatmap_Sun2018 →
  let p := heatmap_profile w pctPlot in
  np_sum (hp_groupsN p) = hp_columnCount p.
Proof. intros Hw. destruct w, pctPlot; try done; vm_compute; reflexivity. Qed.

(** All heatmap wrappers but [heatmap_Nerli2022] label the colorbar of a
    normalized block with "norm. " followed by the label of the raw one. *)
Lemma heatmap_profile_norm_label w pctPlot :
  w ≠ Heatmap_Nerli2022 →
  let p := heatmap_profile w pctPlot in
  hp_norm p = "norm. " +:+ hp_unit p.
Proof. intros Hw. destruct w, pctPlot; try done; reflexivity. Qed.

(** The wrappers whose colour list has 'm4'. *)
Lemma bar_references_m4 w pctPlot :
  "m4" ∈ bp_keys (bar_profile w pctPlot) ↔
  w = PlotBars_Ogawa2021 ∨ w = PlotBars_Hoang2020 ∨ w = PlotBars_Sun2018.
Proof.
  rewrite list_elem_of_In. split.
  - destruct w; try tauto; intros H; exfalso; destruct pctPlot; vm_compute in H;
      repeat (destruct H as [H|H]; [discriminate H|]); exact H.
  - intros [->|[->| ->]]; destruct pctPlot; vm_compute; tauto.
Qed.

Lemma heatmap_references_m4 w pctPlot :
  "m4" ∈ hp_keys (heatmap_profile w pctPlot) ↔
  w = Heatmap_Ogawa2021 ∨ w = Heatmap_Hoang2020 ∨ w = Heatmap_Sun2018.
Proof.
  rewrite list_elem_of_In. split.
  - destruct w; try tauto; intros H; exfalso; destruct pctPlot; vm_compute in H;
      repeat (destruct H as [H|H]; [discriminate H|]); exact H.
  - intros [->|[->| ->]]; destruct pctPlot; vm_compute; tauto.
Qed.

(** ** The maximum of a row *)

Lemma Qmax_cases a b :
  (Qmax a b = a ∧ (b <= a)%Q) ∨ (Qmax a b = b ∧ (a <= b)%Q).
Proof.
  unfold Qmax. destruct (Qle_bool a b) eqn:E.
  - right. split; [reflexivity|]. by apply Qle_bool_iff.
  - left. split; [reflexivity|].
    destruct (Qlt_le_dec b a) as [H|H]; [by apply Qlt_le_weak|].
    apply Qle_bool_iff in H. congruence.
Qed.

Lemma foldl_Qmax_spec l a :
  (a <= foldl Qmax a l)%Q ∧
  Forall (λ v, (v <= foldl Qmax a l)%Q) l ∧
  (foldl Qmax a l = a ∨ foldl Qmax a l ∈ l).
Proof.
  revert a. induction l as [|b l IH]; intros a; cbn [foldl].
  - split; [apply Qle_refl|]. split; [constructor | by left].
  - destruct (IH (Qmax a b)) as (H1 & H2 & H3).
    destruct (Qmax_cases a b) as [[E Hle]|[E Hle]]; rewrite E in *.
    + split; [exact H1|]. split.
      * constructor; [by eapply Qle_trans | exact H2].
      * destruct H3 as [H3|H3]; [by left | right; by apply elem_of_cons; right].
    + split; [by eapply Qle_trans|]. split.
      * constructor; [exact H1 | exact H2].
      * right. apply elem_of_cons. destruct H3 as [H3|H3]; [by left | by right].
Qed.

(** [x.max()] is an entry of the row, and no entry exceeds it. *)
Lemma series_max_spec x m :
  series_max x = Some m → m ∈ x ∧ Forall (λ v, (v <= m)%Q) x.
Proof.
  destruct x as [|a l]; [discriminate|]. cbn [series_max]. intros [= <-].
  destruct (foldl_Qmax_spec l a) as (H1 & H2 & H3). split.
  - apply elem_of_cons. destruct H3 as [->|H3]; [by left | by right].
  - constructor; assumption.
Qed.

(** Dividing a row by its maximum, when that is positive, gives a row
    whose maximum is 1. *)
Lemma series_max_div_by_max x m :
  series_max x = Some m → (0 < m)%Q → series_max (div_by_max x) = Some 1%Q.
Proof.
  intros Hm Hpos. unfold div_by_max. rewrite Hm.
  destruct (series_max_spec x m Hm) as [Hin Hle].
  destruct (series_max (map (λ v, Qred (v / m)) x)) as [M|] eqn:HM.
  2: { destruct x; [inversion Hin | discriminate]. }
  destruct (series_max_spec _ _ HM) as [HMin HMle].
  apply list_elem_of_fmap in HMin as (v & -> & Hv).
  f_equal. change 1%Q with (Qred 1). apply Qred_complete.
  apply Qle_antisym.
  - rewrite Forall_forall in Hle. apply Qle_shift_div_r; [exact Hpos|].
    rewrite Qmult_1_l. by apply Hle.
  - assert (m / m == 1)%Q as E.
    { unfold Qdiv. apply Qmult_inv_r. intros Z. rewrite Z in Hpos.
      by apply Qlt_irrefl in Hpos. }
    assert (Qred (m / m) <= Qred (v / m))%Q as H.
    { rewrite Forall_forall in HMle. apply HMle.
      apply list_elem_of_fmap. by exists m. }
    rewrite !Qred_correct, E in H. exact H.
Qed.

(** * The claims *)

(** ** C1: group sizes against the width of the slice *)

(** C1.  The group sizes of a wrapper should add up to the number of columns
    it slices.  [heatmap_Sun2018] breaks this: on a table of 16 columns the
    slice [iloc[0:,7:16]] has 9 columns, which are all shown, while
    [groupsN = [4,4]] adds up to 8, so that the line closing the groups is
    drawn at 7.5 and none at 8.5, the right edge of the image. *)
Theorem heatmap_Sun2018_groups_short_of_slice :
  let sliced := values (iloc (one_row 16) 7 16) in
  np_sum (hp_groupsN (heatmap_profile Heatmap_Sun2018 false)) = 8%nat ∧
  shape1 sliced = 9%nat ∧
  rows sliced = [[7; 8; 9; 10; 11; 12; 13; 14; 15]%Q] ∧
  ∃ log,
    heatmap_Sun2018 (one_row 16) None false [] = (inr (sliced, "cpm"), log) ∧
    Imshow sliced "bone" ∈ log ∧
    Axvline (Qred (QofN (4 + 4) - (1#2))) "white" 2 ∈ log ∧
    Axvline (Qred (QofN 9 - (1#2))) "white" 2 ∉ log.
Proof.
  cbv zeta. split; [reflexivity|]. split; [reflexivity|]. split; [reflexivity|].
  eexists. split; [vm_compute; reflexivity|].
  split; [|split].
  - apply list_elem_of_In. vm_compute. tauto.
  - apply list_elem_of_In. vm_compute. tauto.
  - intros H%list_elem_of_In. vm_compute in H.
    repeat (destruct H as [H|H]; [discriminate H|]). exact H.
Qed.

(** ** C2: a row narrower than the slice *)

(** C2, counterexample.  A row with fewer columns than the end of the slice
    raises no index fault: [plotBars_Sun2018] on a row of 15 columns (the
    slice ends at 16) draws its eight bars, and [plotBars] on a row of 36
    columns (the slice ends at 37) fails in [ax.bar] with a shape mismatch. *)
Lemma short_row_is_no_index_fault :
  (width (one_row 15) < bp_end (bar_profile PlotBars_Sun2018 false))%nat ∧
  (∃ pH log,
     plotBars_Sun2018 (one_row 15) "gene" None [] = (inr pH, log) ∧
     length pH = 8%nat ∧
     Bar [1; 2; 3; 4; 6; 7; 8; 9]%Q [7; 8; 9; 10; 11; 12; 13; 14]%Q
         (colors_of pC_photoreceptors (bp_keys (bar_profile PlotBars_Sun2018 false)))
       ∈ log) ∧
  (width (one_row 36) < bp_end (bar_profile PlotBars false))%nat ∧
  plotBars (one_row 36) "gene" None [] = (inl (ValueError shape_mismatch), []).
Proof.
  split; [cbn; lia|]. split.
  - do 2 eexists. split; [vm_compute; reflexivity|]. split; [reflexivity|].
    apply list_elem_of_In. vm_compute. tauto.
  - split; [cbn; lia|]. vm_compute. reflexivity.
Qed.

(** C2, amended.  For every bar wrapper and every row with fewer columns than
    the end of the slice, slicing does not fail: it gives the columns from
    the start of the slice to the end of the row, fewer than the slice asks
    for.  The call never raises an index fault.  With a palette that has the
    keys, the values go to [ax.bar]: when their number cannot be broadcast
    against the positions the call raises a shape mismatch and draws
    nothing, and otherwise it draws the bars. *)
Theorem bar_short_row_is_clipped w pctPlot barData geneSymbol pC log r :
  let p := bar_profile w pctPlot in
  let h := drop (bp_start p) r in
  let pal := if_not pC (bp_pC p) in
  cells barData !! 0%nat = Some r →
  (length r < bp_end p)%nat →
  (length h < bp_end p - bp_start p)%nat ∧
  (run_bar w barData geneSymbol pC pctPlot log).1 ≠ inl IndexError ∧
  (has_keys pal (bp_keys p) →
   match broadcast (length (bp_n p)) (length h) with
   | Some m =>
       ∃ pH, run_bar w barData geneSymbol pC pctPlot log
             = (inr pH, log ++ Bar (bp_n p) h (colors_of pal (bp_keys p))
                            :: calls_of (bp_format p geneSymbol)) ∧
             length pH = m
   | None =>
       run_bar w barData geneSymbol pC pctPlot log
       = (inl (ValueError shape_mismatch), log)
   end).
Proof.
  intros p h pal Hr Hlen.
  assert (Hw : (bp_start p < bp_end p)%nat) by (subst p; destruct w, pctPlot; cbn; lia).
  rewrite run_bar_generic. fold p.
  rewrite bar_generic_run by apply bar_profile_draws_only.
  rewrite Hr. cbv zeta. rewrite slice_short by lia. fold h pal.
  split; [subst h; rewrite length_drop; lia|]. split.
  - destruct (first_missing pal (bp_keys p)); [discriminate|].
    destruct (broadcast _ _); discriminate.
  - unfold has_keys. intros ->. destruct (broadcast _ _) as [m|] eqn:Hb; [|reflexivity].
    eexists. split; [reflexivity|].
    destruct (length_broadcast_to _ _ _ Hb) as [L1 L2].
    rewrite !length_zip, L1, L2, length_cycle. lia.
Qed.

(** C2, witness: [plotBars] on a row of 36 columns. *)
Lemma bar_short_row_is_clipped_witness :
  (∃ r, cells (one_row 36) !! 0%nat = Some r ∧
        (length r < bp_end (bar_profile PlotBars false))%nat) ∧
  (plotBars (one_row 36) "gene" None []).1 ≠ inl IndexError.
Proof.
  split.
  - eexists. split; [reflexivity|]. vm_compute. lia.
  - refine (proj1 (proj2 (bar_short_row_is_clipped PlotBars false (one_row 36) "gene" None []
                    (map QofN (seq 0 36)) _ _))).
    + reflexivity.
    + vm_compute. lia.
Defined.

(** ** C3: positions, values and colours of the bars *)

(** C3.  Positions, values and colours of a bar wrapper should have one
    length on a row wide enough for the slice.  [plotBars_Sun2018] breaks
    this: it has 8 positions and 8 colours but slices 9 columns
    ([h_start = 7], [h_end = 16]), so that on a row of 16 columns [ax.bar]
    raises the shape mismatch and nothing is drawn. *)
Theorem plotBars_Sun2018_shape_mismatch :
  let p := bar_profile PlotBars_Sun2018 false in
  length (bp_n p) = 8%nat ∧
  length (bp_keys p) = 8%nat ∧
  (∃ r, cells (one_row 16) !! 0%nat = Some r ∧
        length (slice (bp_start p) (bp_end p) r) = 9%nat) ∧
  plotBars_Sun2018 (one_row 16) "gene" None []
  = (inl (ValueError shape_mismatch), []).
Proof.
  cbv zeta. split; [reflexivity|]. split; [reflexivity|]. split.
  - eexists. split; reflexivity.
  - vm_compute. reflexivity.
Qed.

(** ** C4: the label of the colorbar *)

(** C4.  With [norm] the colorbar should carry the unit of the dataset after
    "norm.".  [heatmap_Nerli2022] breaks this: its unit label is
    "Counts (norm.)" and, on every table, its normalized label is
    "norm. FPKM". *)
Theorem heatmap_Nerli2022_norm_label heatmapData log :
  ∃ im log',
    heatmap_Nerli2022 heatmapData None true log = (inr (im, "norm. FPKM"), log ++ log') ∧
    CbarSetYlabel "norm. FPKM" ∈ log' ∧
    hp_unit (heatmap_profile Heatmap_Nerli2022 false) = "Counts (norm.)" ∧
    "norm. FPKM" ≠ "norm. " +:+ hp_unit (heatmap_profile Heatmap_Nerli2022 false).
Proof.
  pose proof (run_heatmap_generic Heatmap_Nerli2022 heatmapData None false true) as E.
  cbn [run_heatmap] in E. rewrite E. clear E.
  rewrite heatmap_generic_run. cbv zeta. cbn [if_not].
  rewrite (heatmap_profile_default_keys Heatmap_Nerli2022 false : first_missing _ _ = None).
  edestruct heatmap_general_run as [rest ->];
    [rewrite length_colors_of; cbn; lia | cbn; lia |].
  do 2 eexists. split; [reflexivity|]. split; [|split; [reflexivity|discriminate]].
  apply list_elem_of_In. cbn. tauto.
Qed.

(** ** C5: rows divided by their maximum *)

(** C5, counterexample.  A row with a nonzero value need not have maximum 1
    after [norm]: the values of [negative_row] are -2 and -1, their maximum
    is -1, and dividing by it gives a row of 2s and one 1, of maximum 2. *)
Lemma negative_row_norm_max_is_2 :
  ∃ im cbar log src res,
    heatmap negative_row None true [] = (inr (im, cbar), log) ∧
    cells negative_row !! 0%nat = Some src ∧
    Exists (λ v, ¬ (v == 0)%Q) (slice 7 37 src) ∧
    rows im !! 0%nat = Some res ∧
    series_max res = Some 2%Q ∧
    ¬ (2 == 1)%Q.
Proof.
  do 5 eexists. split; [vm_compute; reflexivity|].
  split; [reflexivity|]. split; [|split; [reflexivity|split; [reflexivity|]]].
  - apply Exists_cons_hd. intros H. discriminate H.
  - intros H. discriminate H.
Qed.

(** C5, amended.  For every heatmap wrapper, every table with at least one
    row and every palette that has the keys, a call with [norm] shows a
    block with one row per row of the table, and each row of the block
    whose source row has a positive maximum in the slice has maximum
    exactly 1. *)
Theorem heatmap_norm_row_max w pctPlot heatmapData pC log :
  let p := heatmap_profile w pctPlot in
  cells heatmapData ≠ [] →
  has_keys (if_not pC (hp_pC p)) (hp_keys p) →
  ∃ im cbar log',
    run_heatmap w heatmapData pC pctPlot true log = (inr (im, cbar), log ++ log') ∧
    Imshow im "bone" ∈ log' ∧
    length (rows im) = length (cells heatmapData) ∧
    ∀ i src m,
      cells heatmapData !! i = Some src →
      series_max (slice (hp_start p) (hp_end p) src) = Some m →
      (0 < m)%Q →
      ∃ res, rows im !! i = Some res ∧ series_max res = Some 1%Q.
Proof.
  intros p Hne Hk. rewrite run_heatmap_generic. fold p.
  rewrite heatmap_generic_run. cbv zeta. unfold has_keys in Hk. rewrite Hk.
  destruct (heatmap_profile_lengths w pctPlot) as [L1 L2]. fold p in L1, L2.
  edestruct heatmap_general_run as [rest ->];
    [rewrite length_colors_of; lia | lia |].
  assert ((shape0 (values (apply_rows div_by_max
             (iloc heatmapData (hp_start p) (hp_end p)))) =? 0)%nat = false) as ->.
  { apply Nat.eqb_neq. unfold shape0. cbn. rewrite !length_map.
    destruct (cells heatmapData); [done | cbn; lia]. }
  do 3 eexists. split; [reflexivity|]. split; [|split].
  - apply elem_of_app. left. apply list_elem_of_here.
  - cbn. by rewrite !length_map.
  - intros i src m Hi Hm Hpos. cbn. rewrite !list_lookup_fmap, Hi. cbn.
    eexists. split; [reflexivity|]. by eapply series_max_div_by_max.
Qed.

(** C5, witness: [heatmap] on a row whose values are 7, ..., 36. *)
Lemma heatmap_norm_row_max_witness :
  ∃ im cbar log',
    heatmap (one_row 37) None true [] = (inr (im, cbar), log') ∧
    ∃ res, rows im !! 0%nat = Some res ∧ series_max res = Some 1%Q.
Proof.
  destruct (heatmap_norm_row_max Heatmap false (one_row 37) None [])
    as (im & cbar & log' & Hrun & _ & _ & Hmax).
  - vm_compute. discriminate.
  - vm_compute. reflexivity.
  - exists im, cbar, ([] ++ log'). split; [exact Hrun|].
    apply (Hmax 0%nat (map QofN (seq 0 37)) 36%Q).
    + reflexivity.
    + vm_compute. reflexivity.
    + vm_compute. reflexivity.
Defined.

(** ** C6: the placeholder of an empty table *)

(** C6, counterexample.  The placeholder is not always as wide as the
    profile: [heatmap] slices columns 7 to 37, 30 columns, but on a table of
    10 columns without rows [data.shape[1]] is 3, and the block shown has 2
    rows and 3 columns. *)
Lemma narrow_empty_table_narrow_placeholder :
  cells (no_row 10) = [] ∧
  hp_columnCount (heatmap_profile Heatmap false) = 30%nat ∧
  ∃ cbar log,
    heatmap (no_row 10) None false [] = (inr (np_ones 2 3, cbar), log) ∧
    Imshow (np_ones 2 3) "bone" ∈ log ∧
    rows (np_ones 2 3) = [[1; 1; 1]; [1; 1; 1]]%Q.
Proof.
  split; [reflexivity|]. split; [reflexivity|].
  do 2 eexists. split; [vm_compute; reflexivity|]. split; [|reflexivity].
  apply list_elem_of_here.
Qed.

(** C6, amended.  For every heatmap wrapper called on a table without rows
    (and a palette that has the keys), the call does not fail: it shows a
    block of 2 rows and N columns of 1s and labels both rows "not found".
    N is the number of columns of the slice that the table has, the end of
    the slice clipped to the width of the table minus its start; it is the
    column count of the profile for a table at least as wide as the end of
    the slice. *)
Theorem heatmap_empty_placeholder w pctPlot norm heatmapData pC log :
  let p := heatmap_profile w pctPlot in
  let N := (Nat.min (width heatmapData) (hp_end p) - hp_start p)%nat in
  cells heatmapData = [] →
  has_keys (if_not pC (hp_pC p)) (hp_keys p) →
  ∃ cbar rest,
    run_heatmap w heatmapData pC pctPlot norm log
    = (inr (np_ones 2 N, cbar),
       log ++ [Imshow (np_ones 2 N) "bone"; Colorbar "horizontal"; CbarSetYlabel cbar;
               SetXticks (arange 0 (QofN N)) false; SetYticks [0; 1]%Q;
               SetXticklabels []; SetYticklabels ["not found"; "not found"]] ++ rest) ∧
    rows (np_ones 2 N) = [replicate N 1%Q; replicate N 1%Q] ∧
    ((hp_end p ≤ width heatmapData)%nat → N = hp_columnCount p).
Proof.
  intros p N Hempty Hk. rewrite run_heatmap_generic. fold p.
  rewrite heatmap_generic_run. cbv zeta. unfold has_keys in Hk. rewrite Hk.
  destruct (heatmap_profile_lengths w pctPlot) as [L1 L2]. fold p in L1, L2.
  edestruct heatmap_general_run as [rest ->];
    [rewrite length_colors_of; lia | lia |].
  assert (∀ d, rows d = [] → (shape0 d =? 0)%nat = true) as Hz.
  { intros d Hd. unfold shape0. by rewrite Hd. }
  rewrite Hz by (destruct norm; cbn; rewrite Hempty; reflexivity).
  replace (shape1 (if norm then _ else _)) with N by (destruct norm; reflexivity).
  do 2 eexists. split; [reflexivity|]. split; [reflexivity|].
  intros Hw. subst N. unfold hp_columnCount. lia.
Qed.

(** C6, witness: [heatmap] on a table of 40 columns without rows. *)
Lemma heatmap_empty_placeholder_witness :
  ∃ cbar log',
    heatmap (no_row 40) None false [] = (inr (np_ones 2 30, cbar), log') ∧
    SetYticklabels ["not found"; "not found"] ∈ log'.
Proof.
  destruct (heatmap_empty_placeholder Heatmap false false (no_row 40) None [])
    as (cbar & rest & Hrun & _ & _).
  - reflexivity.
  - vm_compute. reflexivity.
  - do 2 eexists. split; [exact Hrun|].
    apply list_elem_of_In. cbn. tauto.
Defined.

(** ** C7: the Rods/UV/S/M/L bar plot *)

(** C7.  [plotBars] on a row of at least 37 columns, with a palette that has
    the five keys: the x ticks are at 3.5, 10, 16.5, 24 and 31.5, their
    labels are Rods, UV, S, M and L, there are 30 bars, and the bar of
    index 6, the first UV column, shows column 13 of the row at position 8
    in the colour behind 'u' in the palette. *)
Theorem plotBars_ticks_and_UV_color barData geneSymbol pC log r :
  let pal := if_not pC pC_photoreceptors in
  cells barData !! 0%nat = Some r →
  (37 ≤ length r)%nat →
  has_keys pal ["r"; "u"; "s"; "m"; "l"] →
  ∃ pH log' u h6,
    plotBars barData geneSymbol pC log = (inr pH, log ++ log') ∧
    SetXticks [7#2; 10; 33#2; 24; 63#2]%Q false ∈ log' ∧
    SetXticklabels ["Rods"; "UV"; "S"; "M"; "L"] ∈ log' ∧
    length pH = 30%nat ∧
    pal !! "u" = Some u ∧
    r !! 13%nat = Some h6 ∧
    pH !! 6%nat = Some (8%Q, h6, u).
Proof.
  intros pal Hr Hlen Hk.
  pose (p := bar_profile PlotBars false).
  assert (has_keys pal (bp_keys p)) as Hk'.
  { apply has_keys_Forall. apply has_keys_Forall in Hk.
    rewrite Forall_forall in Hk. apply Forall_forall. intros k Hin. apply Hk.
    apply list_elem_of_In in Hin. apply list_elem_of_In. vm_compute in Hin |- *. tauto. }
  assert (is_Some (pal !! "u")) as [u Hu].
  { apply has_keys_Forall in Hk. rewrite Forall_forall in Hk. apply Hk.
    apply list_elem_of_In. cbn. tauto. }
  assert (is_Some (r !! 13%nat)) as [h6 Hh6] by (apply lookup_lt_is_Some; lia).
  pose proof (bar_generic_full p barData geneSymbol pC log r
                (bar_profile_draws_only PlotBars false geneSymbol) Hr Hlen
                eq_refl eq_refl Hk') as Hrun.
  change (bar_generic p barData geneSymbol pC) with (plotBars barData geneSymbol pC) in Hrun.
  rewrite Hrun. exists (zip (zip (bp_n p) (slice 7 37 r)) (colors_of pal (bp_keys p))).
  eexists. exists u, h6. split; [reflexivity|].
  split; [apply list_elem_of_In; cbn; tauto|].
  split; [apply list_elem_of_In; cbn; tauto|].
  split.
  { rewrite !length_zip, length_colors_of, length_slice.
    change (length (bp_n p)) with 30%nat. change (length (bp_keys p)) with 30%nat. lia. }
  split; [exact Hu|]. split; [exact Hh6|].
  rewrite !lookup_zip_with.
  rewrite lookup_slice by lia. cbn [Nat.add]. rewrite Hh6.
  unfold colors_of. rewrite list_lookup_fmap.
  change (bp_keys p !! 6%nat) with (Some "u").
  change (bp_n p !! 6%nat) with (Some 8%Q).
  cbn. fold pal. rewrite Hu. reflexivity.
Qed.

(** C7, witness: a row of 37 columns and the default palette. *)
Lemma plotBars_ticks_and_UV_color_witness :
  ∃ pH log',
    plotBars (one_row 37) "gene" None [] = (inr pH, log') ∧
    SetXticks [7#2; 10; 33#2; 24; 63#2]%Q false ∈ log' ∧
    pH !! 6%nat = Some (8%Q, 13%Q, "#B540B7").
Proof.
  destruct (plotBars_ticks_and_UV_color (one_row 37) "gene" None [] (map QofN (seq 0 37)))
    as (pH & log' & u & h6 & Hrun & Ht & _ & _ & Hu & Hh & H6).
  - reflexivity.
  - vm_compute. lia.
  - vm_compute. reflexivity.
  - exists pH, log'. split; [exact Hrun|]. split; [exact Ht|].
    vm_compute in Hu, Hh. injection Hu as <-. injection Hh as <-. exact H6.
Defined.

(** ** C8: the percent-expressing columns of [plotBars_Ogawa2021] *)

(** C8.  [plotBars_Ogawa2021] on a row of at least 19 columns: with
    [pctPlot] the bars show columns 2+9 to 10+9 (exclusive) of the row,
    without it columns 2 to 10 (exclusive).  Positions, colours, x ticks and
    x tick labels are the same in both calls; the calls differ besides in
    the y label only, which [pctPlot] sets to "% expressing". *)
Theorem plotBars_Ogawa2021_pctPlot_offset barData geneSymbol pC log r :
  let pal := if_not pC pC_photoreceptors in
  let n := arange 1 9 in
  let barColors := colors_of pal ["r"; "u"; "s"; "m"; "l"; "m4"; "onBC"; "offBC"] in
  let ticks :=
    calls_of defaultFonts ++
    [SetXticks n false;
     SetXticklabels ["Rods"; "UV"; "S"; "M"; "L"; "M4"; "BC$_{on}$"; "BC$_{off}$"];
     Style "xaxis.set_tick_params(rotation=45)"] in
  cells barData !! 0%nat = Some r →
  (10 + 9 ≤ length r)%nat →
  has_keys pal ["r"; "u"; "s"; "m"; "l"; "m4"; "onBC"; "offBC"] →
  plotBars_Ogawa2021 barData geneSymbol pC true log
  = (inr (zip (zip n (slice (2 + 9) (10 + 9) r)) barColors),
     log ++ Bar n (slice (2 + 9) (10 + 9) r) barColors
         :: ticks ++ [SetYlabel "avg. counts"; SetYlabel "% expressing";
                      SetTitle geneSymbol]) ∧
  plotBars_Ogawa2021 barData geneSymbol pC false log
  = (inr (zip (zip n (slice 2 10 r)) barColors),
     log ++ Bar n (slice 2 10 r) barColors
         :: ticks ++ [SetYlabel "avg. counts"; SetTitle geneSymbol]).
Proof.
  intros pal n barColors ticks Hr Hlen Hk. split.
  - apply (bar_generic_full (bar_profile PlotBars_Ogawa2021 true) barData geneSymbol pC log r
             (bar_profile_draws_only PlotBars_Ogawa2021 true geneSymbol) Hr Hlen
             eq_refl eq_refl Hk).
  - assert (10 ≤ length r)%nat as Hlen' by lia.
    apply (bar_generic_full (bar_profile PlotBars_Ogawa2021 false) barData geneSymbol pC log r
             (bar_profile_draws_only PlotBars_Ogawa2021 false geneSymbol) Hr Hlen'
             eq_refl eq_refl Hk).
Qed.

(** C8, witness: a row of 19 columns whose cells are their own indices. *)
Lemma plotBars_Ogawa2021_pctPlot_offset_witness :
  ∃ pHt pHf logt logf,
    plotBars_Ogawa2021 (one_row 19) "gene" None true [] = (inr pHt, logt) ∧
    plotBars_Ogawa2021 (one_row 19) "gene" None false [] = (inr pHf, logf) ∧
    pHt.*1.*2 = [11; 12; 13; 14; 15; 16; 17; 18]%Q ∧
    pHf.*1.*2 = [2; 3; 4; 5; 6; 7; 8; 9]%Q ∧
    pHt.*1.*1 = pHf.*1.*1 ∧ pHt.*2 = pHf.*2.
Proof.
  destruct (plotBars_Ogawa2021_pctPlot_offset (one_row 19) "gene" None []
              (map QofN (seq 0 19))) as [Ht Hf].
  - reflexivity.
  - vm_compute. lia.
  - vm_compute. reflexivity.
  - do 4 eexists. split; [exact Ht|]. split; [exact Hf|].
    vm_compute. repeat split; reflexivity.
Defined.

(** ** C9: a palette without 'm4' *)



(** ** C10: the empty palette *)

(** C10.  For every wrapper, [pC = {}] is [pC = None]: the default palette
    of the wrapper is used, the two calls do the same, and no [KeyError] is
    raised. *)
Theorem empty_palette_is_default pctPlot log :
  (∀ w barData geneSymbol,
     if_not (Some ∅) (bp_pC (bar_profile w pctPlot)) = bp_pC (bar_profile w pctPlot) ∧
     run_bar w barData geneSymbol (Some ∅) pctPlot log
     = run_bar w barData geneSymbol None pctPlot log ∧
     ∀ k, (run_bar w barData geneSymbol (Some ∅) pctPlot log).1 ≠ inl (KeyError k)) ∧
  (∀ w heatmapData norm,
     if_not (Some ∅) (hp_pC (heatmap_profile w pctPlot)) = hp_pC (heatmap_profile w pctPlot) ∧
     run_heatmap w heatmapData (Some ∅) pctPlot norm log
     = run_heatmap w heatmapData None pctPlot norm log ∧
     ∀ k, (run_heatmap w heatmapData (Some ∅) pctPlot norm log).1 ≠ inl (KeyError k)).
Proof.
  split.
  - intros w barData geneSymbol. split; [reflexivity|]. split.
    + rewrite !run_bar_generic. reflexivity.
    + intros k. rewrite run_bar_generic, bar_generic_run by apply bar_profile_draws_only.
      destruct (cells barData !! 0%nat); [|discriminate]. cbv zeta.
      rewrite if_not_empty.
      rewrite (bar_profile_default_keys w pctPlot : first_missing _ _ = None).
      destruct (broadcast _ _); discriminate.
  - intros w heatmapData norm. split; [reflexivity|]. split.
    + rewrite !run_heatmap_generic. reflexivity.
    + intros k. rewrite run_heatmap_generic, heatmap_generic_run. cbv zeta.
      rewrite if_not_empty.
      rewrite (heatmap_profile_default_keys w pctPlot : first_missing _ _ = None).
      destruct (heatmap_profile_lengths w pctPlot) as [L1 L2].
      edestruct heatmap_general_run as [rest ->];
        [rewrite length_colors_of; lia | lia |].
      discriminate.
Qed.

(** * Further properties *)

(** ** Failures and the surface; bars per column *)

(** The block a heatmap wrapper hands to [heatmap_general]. *)
Lemma heatmap_run_block w pctPlot (norm : bool) heatmapData pC log :
  let p := heatmap_profile w pctPlot in
  let f : list Q → list Q :=
    if norm then (λ r, div_by_max (slice (hp_start p) (hp_end p) r))
    else slice (hp_start p) (hp_end p) in
  let data := {| shape1 := (Nat.min (width heatmapData) (hp_end p) - hp_start p)%nat;
                 rows := map f (cells heatmapData) |} in
  cells heatmapData ≠ [] →
  has_keys (if_not pC (hp_pC p)) (hp_keys p) →
  ∃ rest,
    run_heatmap w heatmapData pC pctPlot norm log
    = (inr (data, if norm then hp_norm p else hp_unit p),
       log ++ [Imshow data "bone"; Colorbar "horizontal";
               CbarSetYlabel (if norm then hp_norm p else hp_unit p);
               SetXticks (arange 0 (QofN (shape1 data))) false;
               SetYticks (arange 0 (QofN (length (cells heatmapData))));
               SetXticklabels []; SetYticklabels (symbol heatmapData)] ++ rest).
Proof.
  intros p f data Hne Hk. rewrite run_heatmap_generic. fold p.
  rewrite heatmap_generic_run. cbv zeta. unfold has_keys in Hk. rewrite Hk.
  destruct (heatmap_profile_lengths w pctPlot) as [L1 L2]. fold p in L1, L2.
  edestruct heatmap_general_run as [rest ->];
    [rewrite length_colors_of; lia | lia |].
  assert ((if norm
           then values (apply_rows div_by_max (iloc heatmapData (hp_start p) (hp_end p)))
           else values (iloc heatmapData (hp_start p) (hp_end p))) = data) as ->.
  { subst data f. destruct norm; unfold values, apply_rows, iloc; cbn;
      [rewrite map_map|]; reflexivity. }
  assert ((shape0 data =? 0)%nat = false) as ->.
  { apply Nat.eqb_neq. unfold shape0. subst data. cbn. rewrite length_map.
    destruct (cells heatmapData); [done | cbn; lia]. }
  exists rest. unfold shape0. subst data. cbn. rewrite length_map. reflexivity.
Qed.

(** X1.  A call of a wrapper that raises leaves the surface as it was:
    whatever the exception, no drawing call has been made by then. *)
Theorem failed_call_draws_nothing pctPlot log e :
  (∀ w barData geneSymbol pC,
     (run_bar w barData geneSymbol pC pctPlot log).1 = inl e →
     (run_bar w barData geneSymbol pC pctPlot log).2 = log) ∧
  (∀ w heatmapData pC norm,
     (run_heatmap w heatmapData pC pctPlot norm log).1 = inl e →
     (run_heatmap w heatmapData pC pctPlot norm log).2 = log).
Proof.
  split.
  - intros w barData geneSymbol pC.
    rewrite run_bar_generic, bar_generic_run by apply bar_profile_draws_only.
    destruct (cells barData !! 0%nat); [|reflexivity]. cbv zeta.
    destruct (first_missing _ _); [reflexivity|].
    destruct (broadcast _ _); [discriminate | reflexivity].
  - intros w heatmapData pC norm.
    rewrite run_heatmap_generic, heatmap_generic_run. cbv zeta.
    destruct (first_missing _ _); [reflexivity|].
    destruct (heatmap_profile_lengths w pctPlot) as [L1 L2].
    edestruct heatmap_general_run as [rest ->];
      [rewrite length_colors_of; lia | lia |].
    discriminate.
Qed.

(** X1, witness. *)
Lemma failed_call_draws_nothing_witness :
  (plotBars_Sun2018 (one_row 16) "gene" None []).1 = inl (ValueError shape_mismatch) ∧
  (plotBars_Sun2018 (one_row 16) "gene" None []).2 = [].
Proof.
  split; [vm_compute; reflexivity|].
  refine (proj1 (failed_call_draws_nothing false [] (ValueError shape_mismatch))
            PlotBars_Sun2018 (one_row 16) "gene" None _).
  vm_compute. reflexivity.
Defined.

(** X2.  Bar wrappers fail in the order of the source.  A table without
    rows raises [IndexError] whatever the palette; with a row, a palette
    that lacks a key of the colour list raises [KeyError] for the first such
    key, whatever the width of the row.  Nothing is drawn in either case. *)
Theorem bar_errors_in_order w pctPlot barData geneSymbol pC log :
  let p := bar_profile w pctPlot in
  (cells barData = [] →
   run_bar w barData geneSymbol pC pctPlot log = (inl IndexError, log)) ∧
  (∀ k, cells barData ≠ [] →
        first_missing (if_not pC (bp_pC p)) (bp_keys p) = Some k →
        run_bar w barData geneSymbol pC pctPlot log = (inl (KeyError k), log)).
Proof.
  intros p. rewrite run_bar_generic, bar_generic_run by apply bar_profile_draws_only.
  fold p. split.
  - intros ->. reflexivity.
  - intros k Hne Hk. destruct (cells barData); [done|]. cbn [lookup list_lookup].
    cbv zeta. rewrite Hk. reflexivity.
Qed.

(** X2, witness. *)
Lemma bar_errors_in_order_witness :
  plotBars (no_row 40) "gene" (Some {["x" := "#000000"]}) [] = (inl IndexError, []) ∧
  plotBars (one_row 3) "gene" (Some {["x" := "#000000"]}) [] = (inl (KeyError "r"), []).
Proof.
  split.
  - apply (proj1 (bar_errors_in_order PlotBars false (no_row 40) "gene"
                    (Some {["x" := "#000000"]}) [])). reflexivity.
  - apply (proj2 (bar_errors_in_order PlotBars false (one_row 3) "gene"
                    (Some {["x" := "#000000"]}) [])).
    + vm_compute. discriminate.
    + vm_compute. reflexivity.
Defined.

(** X3.  Every bar wrapper but [plotBars_Sun2018], on a row wide enough for
    the slice and with a palette that has the keys, draws one bar per column
    of the slice: bar [i] stands at position [n[i]], has the height of
    column [h_start + i] of the row and the colour of the [i]-th key. *)
Theorem bar_one_per_column w pctPlot barData geneSymbol pC log r :
  let p := bar_profile w pctPlot in
  let pal := if_not pC (bp_pC p) in
  w ≠ PlotBars_Sun2018 →
  cells barData !! 0%nat = Some r →
  (bp_end p ≤ length r)%nat →
  has_keys pal (bp_keys p) →
  ∃ pH log',
    run_bar w barData geneSymbol pC pctPlot log = (inr pH, log ++ log') ∧
    length pH = (bp_end p - bp_start p)%nat ∧
    ∀ i, (i < bp_end p - bp_start p)%nat →
      ∃ x v key c,
        bp_n p !! i = Some x ∧ r !! (bp_start p + i)%nat = Some v ∧
        bp_keys p !! i = Some key ∧ pal !! key = Some c ∧
        pH !! i = Some (x, v, c).
Proof.
  intros p pal Hw Hr Hlen Hk.
  pose proof (bar_profile_slice_width w pctPlot Hw) as Hwd. cbv zeta in Hwd. fold p in Hwd.
  pose proof (bar_profile_lengths w pctPlot) as Hc. cbv zeta in Hc. fold p in Hc.
  rewrite run_bar_generic. fold p.
  rewrite (bar_generic_full p barData geneSymbol pC log r
             (bar_profile_draws_only w pctPlot geneSymbol) Hr Hlen Hwd Hc Hk).
  do 2 eexists. split; [reflexivity|]. split.
  { rewrite !length_zip, length_colors_of, length_slice. lia. }
  intros i Hi.
  assert (is_Some (bp_n p !! i)) as [x Hx] by (apply lookup_lt_is_Some; lia).
  assert (is_Some (r !! (bp_start p + i)%nat)) as [v Hv] by (apply lookup_lt_is_Some; lia).
  assert (is_Some (bp_keys p !! i)) as [key Hkey] by (apply lookup_lt_is_Some; lia).
  assert (is_Some (pal !! key)) as [c Hcol].
  { apply has_keys_Forall in Hk. rewrite Forall_forall in Hk. apply Hk.
    by eapply list_elem_of_lookup_2. }
  exists x, v, key, c. repeat (split; [assumption|]).
  rewrite !lookup_zip_with, Hx, lookup_slice, Hv by lia. cbn.
  unfold colors_of. rewrite list_lookup_fmap, Hkey. cbn. fold pal. by rewrite Hcol.
Qed.

(** X3, witness. *)
Lemma bar_one_per_column_witness :
  ∃ pH log',
    plotBars_Nerli2022 (one_row 21) "gene" None [] = (inr pH, log') ∧
    length pH = 20%nat ∧
    pH !! 5%nat = Some ((11#2)%Q, 6%Q, "#dcc360").
Proof.
  destruct (bar_one_per_column PlotBars_Nerli2022 false (one_row 21) "gene" None []
              (map QofN (seq 0 21))) as (pH & log' & Hrun & Hl & Hi).
  - discriminate.
  - reflexivity.
  - vm_compute. lia.
  - vm_compute. reflexivity.
  - exists pH, log'. split; [exact Hrun|]. split; [exact Hl|].
    destruct (Hi 5%nat) as (x & v & key & c & Hx & Hv & Hkey & Hc & H); [vm_compute; lia|].
    vm_compute in Hx, Hv, Hkey. injection Hx as <-. injection Hv as <-. injection Hkey as <-.
    vm_compute in Hc. injection Hc as <-. exact H.
Defined.

(** ** The block a heatmap shows *)

(** X4.  Without a palette ([None] or [{}]) a heatmap wrapper never fails,
    whatever the table, [pctPlot] and [norm]: it returns the image and the
    label of the colorbar.  The image has at least one row: the rows of the
    table, or the two rows of the placeholder. *)
Theorem heatmap_default_palette_never_fails w pctPlot (norm : bool) heatmapData pC log :
  truthy pC = false →
  ∃ im rest,
    run_heatmap w heatmapData pC pctPlot norm log
    = (inr (im, if norm then hp_norm (heatmap_profile w pctPlot)
                else hp_unit (heatmap_profile w pctPlot)),
       log ++ Imshow im "bone" :: rest) ∧
    (0 < shape0 im)%nat ∧
    (cells heatmapData ≠ [] → shape0 im = length (cells heatmapData)).
Proof.
  intros Hf. rewrite run_heatmap_generic, heatmap_generic_run. cbv zeta.
  assert (if_not pC (hp_pC (heatmap_profile w pctPlot)) = hp_pC (heatmap_profile w pctPlot))
    as -> by (destruct pC; cbn in *; [rewrite Hf|]; reflexivity).
  rewrite (heatmap_profile_default_keys w pctPlot : first_missing _ _ = None).
  destruct (heatmap_profile_lengths w pctPlot) as [L1 L2].
  edestruct heatmap_general_run as [rest ->];
    [rewrite length_colors_of; lia | lia |].
  do 2 eexists. split; [reflexivity|].
  set (data := if norm then _ else _).
  assert (shape0 data = length (cells heatmapData)) as Hs.
  { subst data. destruct norm; unfold shape0; cbn; by rewrite !length_map. }
  destruct (Nat.eqb_spec (shape0 data) 0) as [E|NE].
  - split; [cbn; lia|]. intros Hne. destruct (cells heatmapData); [done|]. cbn in Hs. lia.
  - split; [lia|]. intros _. exact Hs.
Qed.

(** X4, witness. *)
Lemma heatmap_default_palette_never_fails_witness :
  ∃ im cbar log',
    heatmap_Xu2020_RetDev (one_row 3) (Some ∅) true true [] = (inr (im, cbar), log') ∧
    shape0 im = 1%nat.
Proof.
  destruct (heatmap_default_palette_never_fails Heatmap_Xu2020_RetDev true true
              (one_row 3) (Some ∅) []) as (im & rest & Hrun & _ & Hs).
  - reflexivity.
  - do 3 eexists. split; [exact Hrun|]. apply Hs. vm_compute. discriminate.
Defined.

(** X5.  Without [norm], on a table with at least one row, a heatmap
    wrapper shows the cells as they are: row [i] of the image is the slice
    of row [i] of the table, the y tick labels are the [symbol] column, and
    the width of the image is that of the slice clipped to the table. *)
Theorem heatmap_raw_block w pctPlot heatmapData pC log :
  let p := heatmap_profile w pctPlot in
  cells heatmapData ≠ [] →
  has_keys (if_not pC (hp_pC p)) (hp_keys p) →
  ∃ im log',
    run_heatmap w heatmapData pC pctPlot false log = (inr (im, hp_unit p), log ++ log') ∧
    Imshow im "bone" ∈ log' ∧
    SetYticklabels (symbol heatmapData) ∈ log' ∧
    shape1 im = (Nat.min (width heatmapData) (hp_end p) - hp_start p)%nat ∧
    rows im = map (slice (hp_start p) (hp_end p)) (cells heatmapData).
Proof.
  intros p Hne Hk.
  destruct (heatmap_run_block w pctPlot false heatmapData pC log Hne Hk) as [rest ->].
  do 2 eexists. split; [reflexivity|].
  split; [|split; [|split; reflexivity]].
  - apply elem_of_app. left. apply list_elem_of_here.
  - apply elem_of_app. left. apply list_elem_of_In. cbn. tauto.
Qed.

(** X5, witness. *)
Lemma heatmap_raw_block_witness :
  ∃ im log',
    heatmap_Yoshimatsu2020 (one_row 9) None false [] = (inr (im, "cpm"), log') ∧
    SetYticklabels ["gene"] ∈ log' ∧
    rows im = [[1; 2; 3; 4; 5; 6; 7; 8]%Q].
Proof.
  destruct (heatmap_raw_block Heatmap_Yoshimatsu2020 false (one_row 9) None [])
    as (im & log' & Hrun & _ & Hl & _ & Hr).
  - vm_compute. discriminate.
  - vm_compute. reflexivity.
  - exists im, log'. split; [exact Hrun|]. split; [exact Hl|]. exact Hr.
Defined.

Lemma div_by_max_bounds x m :
  series_max x = Some m → (0 < m)%Q →
  length (div_by_max x) = length x ∧
  Forall (λ v, (v <= 1)%Q) (div_by_max x) ∧
  (Forall (λ v, (0 <= v)%Q) x → Forall (λ v, (0 <= v)%Q) (div_by_max x)).
Proof.
  intros Hm Hpos. unfold div_by_max. rewrite Hm.
  destruct (series_max_spec x m Hm) as [_ Hle].
  split; [by rewrite length_map|]. split.
  - apply Forall_fmap. eapply Forall_impl; [exact Hle|]. intros v Hv. cbn.
    rewrite Qred_correct. apply Qle_shift_div_r; [exact Hpos|]. by rewrite Qmult_1_l.
  - intros H0. apply Forall_fmap. eapply Forall_impl; [exact H0|]. intros v Hv. cbn.
    rewrite Qred_correct. apply Qle_shift_div_l; [exact Hpos|]. by rewrite Qmult_0_l.
Qed.

(** X6.  With [norm], every row of the image whose source row has a
    positive maximum has as many values as the slice, all at most 1, and all
    at least 0 when the source values are. *)
Theorem heatmap_norm_values_bounded w pctPlot heatmapData pC log :
  let p := heatmap_profile w pctPlot in
  cells heatmapData ≠ [] →
  has_keys (if_not pC (hp_pC p)) (hp_keys p) →
  ∃ im log',
    run_heatmap w heatmapData pC pctPlot true log = (inr (im, hp_norm p), log ++ log') ∧
    ∀ i src m,
      cells heatmapData !! i = Some src →
      series_max (slice (hp_start p) (hp_end p) src) = Some m →
      (0 < m)%Q →
      ∃ res,
        rows im !! i = Some res ∧
        length res = length (slice (hp_start p) (hp_end p) src) ∧
        Forall (λ v, (v <= 1)%Q) res ∧
        (Forall (λ v, (0 <= v)%Q) (slice (hp_start p) (hp_end p) src) →
         Forall (λ v, (0 <= v)%Q) res).
Proof.
  intros p Hne Hk.
  destruct (heatmap_run_block w pctPlot true heatmapData pC log Hne Hk) as [rest ->].
  do 2 eexists. split; [reflexivity|].
  intros i src m Hi Hm Hpos. cbn. rewrite list_lookup_fmap, Hi. cbn.
  eexists. split; [reflexivity|]. by apply (div_by_max_bounds _ m).
Qed.

(** X6, witness. *)
Lemma heatmap_norm_values_bounded_witness :
  ∃ im log' res,
    heatmap_Yoshimatsu2020 (one_row 9) None true [] = (inr (im, "norm. cpm"), log') ∧
    rows im !! 0%nat = Some res ∧
    Forall (λ v, (0 <= v)%Q ∧ (v <= 1)%Q) res.
Proof.
  destruct (heatmap_norm_values_bounded Heatmap_Yoshimatsu2020 false (one_row 9) None [])
    as (im & log' & Hrun & Hb).
  - vm_compute. discriminate.
  - vm_compute. reflexivity.
  - destruct (Hb 0%nat (map QofN (seq 0 9)) 8%Q) as (res & Hres & _ & H1 & H0).
    + reflexivity.
    + vm_compute. reflexivity.
    + vm_compute. reflexivity.
    + exists im, log', res. split; [exact Hrun|]. split; [exact Hres|].
      apply Forall_and. split; [|exact H1]. apply H0.
      vm_compute. repeat constructor; discriminate.
Defined.

Lemma Qred_div_1 y : Qred (Qred y / 1) = Qred y.
Proof.
  apply Qred_complete. unfold Qdiv. change (/ 1)%Q with 1%Q.
  rewrite Qmult_1_r. apply Qred_correct.
Qed.

(** X7.  [lambda x: x/x.max()] twice is [lambda x: x/x.max()] once, on a
    row of positive maximum: a normalized row is left as it is. *)
Theorem div_by_max_idempotent x m :
  series_max x = Some m → (0 < m)%Q →
  div_by_max (div_by_max x) = div_by_max x.
Proof.
  intros Hm Hpos.
  pose proof (series_max_div_by_max x m Hm Hpos) as H1.
  unfold div_by_max at 1. rewrite H1.
  unfold div_by_max. rewrite Hm. rewrite map_map.
  apply map_ext. intros v. apply Qred_div_1.
Qed.

(** X7, witness. *)
Lemma div_by_max_idempotent_witness :
  div_by_max (div_by_max [2; 4; 8]%Q) = div_by_max [2; 4; 8]%Q ∧
  div_by_max [2; 4; 8]%Q = [1#4; 1#2; 1]%Q.
Proof.
  split; [|reflexivity].
  apply (div_by_max_idempotent [2; 4; 8]%Q 8%Q); reflexivity.
Defined.

(** ** Bars and heatmap of one dataset *)

(** The bars drawn on a row show the columns of the slice. *)
Lemma bar_heights w pctPlot barData geneSymbol pC log r :
  let p := bar_profile w pctPlot in
  w ≠ PlotBars_Sun2018 →
  cells barData !! 0%nat = Some r →
  (bp_end p ≤ length r)%nat →
  has_keys (if_not pC (bp_pC p)) (bp_keys p) →
  ∃ pH log',
    run_bar w barData geneSymbol pC pctPlot log = (inr pH, log') ∧
    pH.*1.*2 = slice (bp_start p) (bp_end p) r.
Proof.
  intros p Hw Hr Hlen Hk.
  pose proof (bar_profile_slice_width w pctPlot Hw) as Hwd. cbv zeta in Hwd. fold p in Hwd.
  pose proof (bar_profile_lengths w pctPlot) as Hc. cbv zeta in Hc. fold p in Hc.
  rewrite run_bar_generic. fold p.
  rewrite (bar_generic_full p barData geneSymbol pC log r
             (bar_profile_draws_only w pctPlot geneSymbol) Hr Hlen Hwd Hc Hk).
  do 2 eexists. split; [reflexivity|].
  rewrite fst_zip by (rewrite length_zip, length_colors_of, length_slice; lia).
  apply snd_zip. rewrite length_slice. lia.
Qed.

(** X8.  The bar plot and the heatmap of a dataset read the same columns:
    on a row wide enough, the heights of the bars are row 0 of the image of
    the heatmap.  [plotBars_Sun2018] is left out (it fails on such a row),
    and so is the Xu2020 pair with [pctPlot], whose windows differ. *)
Theorem bars_and_heatmap_show_the_same_columns w pctPlot data geneSymbol log r :
  w ≠ PlotBars_Sun2018 →
  ¬ (w = PlotBars_Xu2020_RetDev ∧ pctPlot = true) →
  cells data !! 0%nat = Some r →
  (bp_end (bar_profile w pctPlot) ≤ length r)%nat →
  ∃ pH logb im cbar logh,
    run_bar w data geneSymbol None pctPlot log = (inr pH, logb) ∧
    run_heatmap (heatmap_of w) data None pctPlot false log = (inr (im, cbar), logh) ∧
    rows im !! 0%nat = Some (pH.*1.*2).
Proof.
  intros Hw Hx Hr Hlen.
  destruct (bar_heights w pctPlot data geneSymbol None log r Hw Hr Hlen
              (bar_profile_default_keys w pctPlot)) as (pH & logb & Hb & Hh).
  assert (cells data ≠ []) as Hne by (intros E; rewrite E in Hr; discriminate).
  destruct (heatmap_run_block (heatmap_of w) pctPlot false data None log Hne
              (heatmap_profile_default_keys _ pctPlot)) as [rest Hm].
  do 5 eexists. split; [exact Hb|]. split; [exact Hm|].
  assert (hp_start (heatmap_profile (heatmap_of w) pctPlot) = bp_start (bar_profile w pctPlot)
          ∧ hp_end (heatmap_profile (heatmap_of w) pctPlot) = bp_end (bar_profile w pctPlot))
    as [Es Ee].
  { clear -Hx. destruct w, pctPlot; try (split; reflexivity). exfalso. apply Hx. by split. }
  cbn [rows]. rewrite list_lookup_fmap, Hr, Hh, Es, Ee. reflexivity.
Qed.

(** X8, witness. *)
Lemma bars_and_heatmap_show_the_same_columns_witness :
  ∃ pH logb im cbar logh,
    plotBars_Hoang2020_Ret (one_row 40) "gene" None true [] = (inr pH, logb) ∧
    heatmap_Hoang2020_Ret (one_row 40) None true false [] = (inr (im, cbar), logh) ∧
    rows im !! 0%nat = Some (pH.*1.*2).
Proof.
  apply (bars_and_heatmap_show_the_same_columns PlotBars_Hoang2020_Ret true (one_row 40)
           "gene" [] (map QofN (seq 0 40))).
  - discriminate.
  - intros [H _]. discriminate H.
  - reflexivity.
  - vm_compute. lia.
Defined.

(** X9.  With [pctPlot], [plotBars_Xu2020_RetDev] shows columns 84 to 163
    of the row ([delta = 82]) and [heatmap_Xu2020_RetDev] columns 83 to 162
    ([delta = 81]): the two windows are one column apart. *)
Theorem Xu2020_RetDev_pctPlot_windows data geneSymbol log r :
  cells data !! 0%nat = Some r →
  (164 ≤ length r)%nat →
  ∃ pH logb im cbar logh,
    plotBars_Xu2020_RetDev data geneSymbol None true log = (inr pH, logb) ∧
    heatmap_Xu2020_RetDev data None true false log = (inr (im, cbar), logh) ∧
    pH.*1.*2 = slice 84 164 r ∧
    rows im !! 0%nat = Some (slice 83 163 r).
Proof.
  intros Hr Hlen.
  destruct (bar_heights PlotBars_Xu2020_RetDev true data geneSymbol None log r)
    as (pH & logb & Hb & Hh); [discriminate | exact Hr | exact Hlen | |].
  { apply (bar_profile_default_keys PlotBars_Xu2020_RetDev true). }
  assert (cells data ≠ []) as Hne by (intros E; rewrite E in Hr; discriminate).
  destruct (heatmap_run_block Heatmap_Xu2020_RetDev true false data None log Hne
              (heatmap_profile_default_keys _ true)) as [rest Hm].
  do 5 eexists. split; [exact Hb|]. split; [exact Hm|]. split; [exact Hh|].
  cbn [rows]. rewrite list_lookup_fmap, Hr. reflexivity.
Qed.

(** X9, witness. *)
Lemma Xu2020_RetDev_pctPlot_windows_witness :
  ∃ pH logb im cbar logh,
    plotBars_Xu2020_RetDev (one_row 164) "gene" None true [] = (inr pH, logb) ∧
    heatmap_Xu2020_RetDev (one_row 164) None true false [] = (inr (im, cbar), logh) ∧
    pH.*1.*2 !! 0%nat = Some 84%Q ∧
    (rows im !! 0%nat) ≫= (λ row, row !! 0%nat) = Some 83%Q.
Proof.
  destruct (Xu2020_RetDev_pctPlot_windows (one_row 164) "gene" [] (map QofN (seq 0 164)))
    as (pH & logb & im & cbar & logh & Hb & Hm & Hh & Hi).
  - reflexivity.
  - vm_compute. lia.
  - exists pH, logb, im, cbar, logh. split; [exact Hb|]. split; [exact Hm|].
    rewrite Hh, Hi. split; vm_compute; reflexivity.
Defined.

(** ** [heatmap_general] on its own; palettes *)

Lemma for_raises {A} (l : list A) (body : A → Plt unit) e :
  (∀ x, x ∈ l → ∀ log, ∃ cs,
     body x log = (inr tt, log ++ cs) ∨ body x log = (inl e, log ++ cs)) →
  (∃ x, x ∈ l ∧ ∀ log, ∃ cs, body x log = (inl e, log ++ cs)) →
  ∀ log, ∃ cs, for_ l body log = (inl e, log ++ cs).
Proof.
  induction l as [|x l IH]; intros Hall (x0 & Hin & Hfail) log.
  - inversion Hin.
  - cbn [for_]. unfold bind.
    destruct (Hall x (list_elem_of_here _ _) log) as [cs [Hx|Hx]]; rewrite Hx.
    + apply elem_of_cons in Hin as [->|Hin].
      { destruct (Hfail log) as [cs' Hf]. rewrite Hf in Hx. discriminate. }
      destruct (IH (λ y Hy, Hall y (list_elem_of_further _ _ _ Hy))
                   (ex_intro _ x0 (conj Hin Hfail)) (log ++ cs)) as [cs2 ->].
      exists (cs ++ cs2). by rewrite app_assoc.
    + by exists cs.
Qed.

(** X10.  [heatmap_general] called with fewer colours or fewer labels than
    group sizes raises [IndexError] after it has drawn the image and the
    colorbar: the chart is left partly drawn. *)
Theorem heatmap_general_too_few_colors data row_labels col_labels groupsN groupsColors
    groupsLabels cbarlabel groupRotation log :
  (length groupsColors < length groupsN ∨ length groupsLabels < length groupsN)%nat →
  let shown := if (shape0 data =? 0)%nat then np_ones 2 (shape1 data) else data in
  ∃ cs,
    heatmap_general data row_labels col_labels groupsN groupsColors groupsLabels
      cbarlabel groupRotation log
    = (inl IndexError,
       log ++ Imshow shown "bone" :: Colorbar "horizontal" :: CbarSetYlabel cbarlabel :: cs).
Proof.
  intros Hshort shown. unfold heatmap_general.
  set (labels := if (shape0 data =? 0)%nat then ["not found"; "not found"] else row_labels).
  replace (if (shape0 data =? 0)%nat
           then (np_ones 2 (shape1 data), ["not found"; "not found"])
           else (data, row_labels)) with (shown, labels)
    by (subst shown labels; destruct (shape0 data =? 0)%nat; reflexivity).
  generalize shown labels. clear shown labels. intros shown labels.
  unfold bind at 1 2 3 4 5 6 7 8 9 10. unfold call at 1 2 3 4 5 6 7 8 9 10.
  unfold bind at 1. rewrite for_calls.
  unfold bind at 1. rewrite for_calls.
  unfold bind at 1 2, call at 1 2.
  unfold bind at 1.
  match goal with |- context [for_ ?l ?body ?lg] =>
    destruct (for_raises l body IndexError) with (log := lg) as [cs Hcs] end.
  - intros i _ lg.
    unfold bind, call, index, ret, raise.
    destruct (groupsColors !! i) as [c|]; [|eexists; right; reflexivity].
    destruct (groupsLabels !! i) as [l|]; [|eexists; right; rewrite <- !app_assoc; reflexivity].
    destruct (Qeq_bool groupRotation 0); eexists; left; rewrite <- !app_assoc; reflexivity.
  - exists (Nat.min (length groupsColors) (length groupsLabels)). split.
    + apply elem_of_seq. lia.
    + intros lg. unfold bind, call, index, ret, raise.
      destruct (groupsColors !! _) as [c|] eqn:Hc; [|eexists; reflexivity].
      destruct (groupsLabels !! _) as [l|] eqn:Hl; [|eexists; rewrite <- !app_assoc; reflexivity].
      apply lookup_lt_Some in Hc, Hl. lia.
  - rewrite Hcs. eexists. rewrite <- !app_assoc. cbn [app]. reflexivity.
Qed.

(** X10, witness. *)
Lemma heatmap_general_too_few_colors_witness :
  ∃ cs,
    heatmap_general (values (iloc (one_row 9) 1 9)) ["gene"] [] [4; 4]%nat ["#B789A7"]
      ["UV$_{non-sz}$"; "UV$_{sz}$"] "cpm" 0 []
    = (inl IndexError,
       Imshow (values (iloc (one_row 9) 1 9)) "bone" :: Colorbar "horizontal"
         :: CbarSetYlabel "cpm" :: cs).
Proof.
  apply (heatmap_general_too_few_colors (values (iloc (one_row 9) 1 9)) ["gene"] []
           [4; 4]%nat ["#B789A7"] ["UV$_{non-sz}$"; "UV$_{sz}$"] "cpm" 0 []).
  left. cbn. lia.
Defined.

Lemma first_missing_ext d1 d2 keys :
  (∀ k, k ∈ keys → d1 !! k = d2 !! k) →
  first_missing d1 keys = first_missing d2 keys ∧ colors_of d1 keys = colors_of d2 keys.
Proof.
  induction keys as [|k keys IH]; intros H; [done|].
  destruct IH as [IH1 IH2]; [intros k' Hk'; apply H; by apply elem_of_cons; right|].
  cbn [first_missing]. unfold colors_of in *. cbn [map].
  rewrite (H k) by (apply elem_of_cons; by left). rewrite IH1, IH2. done.
Qed.

(** X11.  Only the entries of a caller's palette under the keys of the
    colour list matter: two non-empty palettes that agree on those keys give
    the same call, whatever else they hold. *)
Theorem palette_matters_on_the_keys_only (d1 d2 : gmap string string) pctPlot log :
  d1 ≠ ∅ → d2 ≠ ∅ →
  (∀ w barData geneSymbol,
     (∀ k, k ∈ bp_keys (bar_profile w pctPlot) → d1 !! k = d2 !! k) →
     run_bar w barData geneSymbol (Some d1) pctPlot log
     = run_bar w barData geneSymbol (Some d2) pctPlot log) ∧
  (∀ w heatmapData norm,
     (∀ k, k ∈ hp_keys (heatmap_profile w pctPlot) → d1 !! k = d2 !! k) →
     run_heatmap w heatmapData (Some d1) pctPlot norm log
     = run_heatmap w heatmapData (Some d2) pctPlot norm log).
Proof.
  intros H1 H2. split.
  - intros w barData geneSymbol Hagree.
    destruct (first_missing_ext _ _ _ Hagree) as [Ef Ec].
    rewrite !run_bar_generic, !bar_generic_run by apply bar_profile_draws_only.
    cbv zeta. rewrite !if_not_truthy by assumption. by rewrite Ef, Ec.
  - intros w heatmapData norm Hagree.
    destruct (first_missing_ext _ _ _ Hagree) as [Ef Ec].
    rewrite !run_heatmap_generic, !heatmap_generic_run.
    cbv zeta. rewrite !if_not_truthy by assumption. by rewrite Ef, Ec.
Qed.

(** X11, witness. *)
Lemma palette_matters_on_the_keys_only_witness :
  plotBars_Yoshimatsu2020 (one_row 9) "gene"
    (Some {["u" := "#111111"; "u2" := "#222222"]}) []
  = plotBars_Yoshimatsu2020 (one_row 9) "gene"
    (Some {["u" := "#111111"; "u2" := "#222222"; "m4" := "#333333"]}) [].
Proof.
  refine (proj1 (palette_matters_on_the_keys_only
                   {["u" := "#111111"; "u2" := "#222222"]}
                   {["u" := "#111111"; "u2" := "#222222"; "m4" := "#333333"]}
                   false [] _ _) PlotBars_Yoshimatsu2020 (one_row 9) "gene" _).
  - apply insert_non_empty.
  - apply insert_non_empty.
  - intros k Hk. apply list_elem_of_In in Hk. vm_compute in Hk.
    repeat (destruct Hk as [<-|Hk]; [vm_compute; reflexivity|]). destruct Hk.
Defined.

(** ** [pctPlot] *)

Lemma slice_drop {A} a b d (l : list A) :
  slice (a + d) (b + d) l = slice a b (drop d l).
Proof.
  unfold slice. rewrite drop_drop. f_equal; [lia|]. f_equal. lia.
Qed.

(** [pctPlot] moves the slice of a bar wrapper and changes nothing else of
    what [ax.bar] gets. *)
Lemma bar_profile_pctPlot w :
  let pt := bar_profile w true in
  let pf := bar_profile w false in
  let d := (bp_start pt - bp_start pf)%nat in
  bp_n pt = bp_n pf ∧ bp_pC pt = bp_pC pf ∧ bp_keys pt = bp_keys pf ∧
  bp_start pt = (bp_start pf + d)%nat ∧ bp_end pt = (bp_end pf + d)%nat.
Proof. destruct w; repeat split; reflexivity. Qed.

(** X12.  For a bar wrapper [pctPlot] is a shift of the columns: a call with
    [pctPlot] returns the bars, or raises the exception, of the call without
    [pctPlot] on a table whose row 0 is the row 0 of the first table short
    of its first [delta] columns ([barData.iloc[:, delta:]], say), [delta]
    being the distance of the two slices. *)
Theorem pctPlot_is_a_shift_of_the_columns w barData barData' geneSymbol pC log :
  let d := (bp_start (bar_profile w true) - bp_start (bar_profile w false))%nat in
  cells barData' !! 0%nat = drop d <$> cells barData !! 0%nat →
  (run_bar w barData geneSymbol pC true log).1
  = (run_bar w barData' geneSymbol pC false log).1.
Proof.
  intros d Hrow.
  destruct (bar_profile_pctPlot w) as (En & Ep & Ek & Es & Ee). fold d in Es, Ee.
  rewrite !run_bar_generic, !bar_generic_run by apply bar_profile_draws_only.
  rewrite Hrow.
  destruct (cells barData !! 0%nat) as [r|]; [|reflexivity]. cbn [fmap option_fmap option_map].
  cbv zeta. rewrite En, Ep, Ek, Es, Ee, slice_drop.
  destruct (first_missing _ _); [reflexivity|].
  destruct (broadcast _ _); reflexivity.
Qed.

(** X12, witness: [plotBars_Ogawa2021] on a row of 19 columns and on its
    last 10 columns. *)
Lemma pctPlot_is_a_shift_of_the_columns_witness :
  drop 9 (map QofN (seq 0 19)) = map QofN (seq 9 10) ∧
  (plotBars_Ogawa2021 (one_row 19) "gene" None true []).1
  = (plotBars_Ogawa2021 (mk_DataFrame ["gene"] 10 [map QofN (seq 9 10)]) "gene"
       None false []).1.
Proof.
  split; [reflexivity|].
  apply (pctPlot_is_a_shift_of_the_columns PlotBars_Ogawa2021 (one_row 19)
           (mk_DataFrame ["gene"] 10 [map QofN (seq 9 10)]) "gene" None []).
  reflexivity.
Defined.

(** ** The groups above the image; a single value *)

Lemma for_ok_each {A} (l : list A) (body : A → Plt unit) (P : A → list Call → Prop) :
  (∀ x, x ∈ l → ∀ log, ∃ cs, body x log = (inr tt, log ++ cs) ∧ P x cs) →
  ∀ log, ∃ css, for_ l body log = (inr tt, log ++ concat css) ∧ Forall2 P l css.
Proof.
  induction l as [|x l IH]; intros Hb log; cbn [for_].
  - exists []. unfold ret. cbn. rewrite app_nil_r. split; [reflexivity | constructor].
  - unfold bind. destruct (Hb x (list_elem_of_here _ _) log) as (cs1 & -> & HP).
    destruct (IH (λ y Hy, Hb y (list_elem_of_further _ _ _ Hy)) (log ++ cs1))
      as (css & -> & HF).
    exists (cs1 :: css). cbn [concat]. rewrite app_assoc.
    split; [reflexivity | by constructor].
Qed.

Lemma np_sum_app l1 l2 : np_sum (l1 ++ l2) = (np_sum l1 + np_sum l2)%nat.
Proof. unfold np_sum. induction l1 as [|a l1 IH]; cbn; [done|]. rewrite IH. lia. Qed.

Lemma np_sum_prefix groupsN i n :
  groupsN !! i = Some n →
  np_sum (slice 0 (i + 1) groupsN) = (np_sum (slice 0 i groupsN) + n)%nat.
Proof.
  intros Hi. unfold slice. rewrite !Nat.sub_0_r, !drop_0.
  replace (i + 1)%nat with (S i) by lia.
  rewrite (take_S_r _ _ _ Hi), np_sum_app. cbn. lia.
Qed.

(** X13.  When every group has a colour and a label, [heatmap_general]
    returns, and for each group [i] of [n] columns it has drawn, in the
    colour of the group, the bar above the image from [before - 0.5] to
    [before + n - 0.5], where [before] is the number of columns of the
    groups in front, and the label of the group at the middle of that bar,
    centred when [groupRotation] is 0 and left-aligned otherwise. *)
Theorem heatmap_general_annotates_every_group data row_labels col_labels groupsN
    groupsColors groupsLabels cbarlabel groupRotation log :
  (length groupsN ≤ length groupsColors)%nat →
  (length groupsN ≤ length groupsLabels)%nat →
  ∃ res log',
    heatmap_general data row_labels col_labels groupsN groupsColors groupsLabels
      cbarlabel groupRotation log = (inr res, log ++ log') ∧
    ∀ i n c l,
      groupsN !! i = Some n → groupsColors !! i = Some c → groupsLabels !! i = Some l →
      let before := np_sum (take i groupsN) in
      let lo := Qred (QofN before - (1#2)) in
      let hi := Qred (QofN (before + n) - (1#2)) in
      let mid := Qred ((QofN before + QofN (before + n)) / 2 - (1#2)) in
      Plot [lo; hi] [-1#2; -1#2]%Q c 8 ∈ log' ∧
      Text mid (-1) l c (if Qeq_bool groupRotation 0 then "center" else "left")
           groupRotation ∈ log'.
Proof.
  intros HC HL. unfold heatmap_general.
  destruct (if (shape0 data =? 0)%nat
            then (np_ones 2 (shape1 data), ["not found"; "not found"])
            else (data, row_labels)) as [shown labels].
  unfold bind at 1 2 3 4 5 6 7 8 9 10. unfold call at 1 2 3 4 5 6 7 8 9 10.
  unfold bind at 1. rewrite for_calls.
  unfold bind at 1. rewrite for_calls.
  unfold bind at 1 2, call at 1 2.
  unfold bind at 1.
  match goal with |- context [for_ ?l ?body ?lg] =>
    destruct (for_ok_each l body (λ i cs, ∀ n c l0,
        groupsN !! i = Some n → groupsColors !! i = Some c → groupsLabels !! i = Some l0 →
        Plot [Qred (QofN (np_sum (take i groupsN)) - (1#2));
              Qred (QofN (np_sum (take i groupsN) + n) - (1#2))] [-1#2; -1#2]%Q c 8 ∈ cs ∧
        Text (Qred ((QofN (np_sum (take i groupsN))
                     + QofN (np_sum (take i groupsN) + n)) / 2 - (1#2))) (-1) l0 c
          (if Qeq_bool groupRotation 0 then "center" else "left") groupRotation ∈ cs))
      with (log := lg) as (css & Hcs & HF) end.
  - intros i Hi lg. apply elem_of_seq in Hi as [_ Hi]. cbn in Hi.
    assert (is_Some (groupsColors !! i)) as [c Hc] by (apply lookup_lt_is_Some; lia).
    assert (is_Some (groupsLabels !! i)) as [l Hl] by (apply lookup_lt_is_Some; lia).
    unfold bind, call, index, ret. rewrite Hc, Hl.
    destruct (Qeq_bool groupRotation 0);
      (eexists; split; [rewrite <- !app_assoc; cbn [app]; reflexivity|]);
      intros n c' l' Hn [= <-] [= <-];
      rewrite (np_sum_prefix _ _ _ Hn); unfold slice; rewrite Nat.sub_0_r, drop_0;
      split; apply list_elem_of_In; cbn; tauto.
  - rewrite Hcs. unfold ret. do 2 eexists. split.
    { rewrite <- !app_assoc. cbn [app]. reflexivity. }
    intros i n c l Hn Hc Hl. cbv zeta.
    assert (i < length groupsN)%nat as Hi by (by eapply lookup_lt_Some).
    destruct (Forall2_lookup_l _ _ _ i i HF) as (cs & Hcsi & HP).
    { apply lookup_seq. split; [reflexivity | exact Hi]. }
    destruct (HP n c l Hn Hc Hl) as [H1 H2].
    assert (∀ x, x ∈ cs → x ∈ concat css) as Hsub.
    { intros x Hx. apply list_elem_of_In, in_concat. exists cs.
      split; apply list_elem_of_In; [by eapply list_elem_of_lookup_2 | exact Hx]. }
    split; repeat first [ by apply Hsub | apply elem_of_cons; right | apply elem_of_app; right ].
Qed.

(** X13, witness. *)
Lemma heatmap_general_annotates_every_group_witness :
  ∃ res log',
    heatmap_general (values (iloc (one_row 9) 1 9)) ["gene"] [] [4; 4]%nat
      ["#B789A7"; "#B540B7"] ["UV$_{non-sz}$"; "UV$_{sz}$"] "cpm" 0 [] = (inr res, log') ∧
    Plot [7#2; 15#2]%Q [-1#2; -1#2]%Q "#B540B7" 8 ∈ log' ∧
    Text (11#2) (-1) "UV$_{sz}$" "#B540B7" "center" 0 ∈ log'.
Proof.
  destruct (heatmap_general_annotates_every_group (values (iloc (one_row 9) 1 9)) ["gene"] []
              [4; 4]%nat ["#B789A7"; "#B540B7"] ["UV$_{non-sz}$"; "UV$_{sz}$"] "cpm" 0 [])
    as (res & log' & Hrun & Hg).
  - cbn. lia.
  - cbn. lia.
  - exists res, log'. split; [exact Hrun|].
    exact (Hg 1%nat 4%nat "#B540B7" "UV$_{sz}$" eq_refl eq_refl eq_refl).
Defined.

(** X14.  A row that ends one column after the start of the slice gives a
    single value, which [ax.bar] broadcasts: every bar of the wrapper is
    drawn, at its position and in its colour, with that one height. *)
Theorem bar_single_value_is_broadcast w pctPlot barData geneSymbol pC log r v :
  let p := bar_profile w pctPlot in
  let pal := if_not pC (bp_pC p) in
  cells barData !! 0%nat = Some r →
  length r = (bp_start p + 1)%nat →
  r !! bp_start p = Some v →
  has_keys pal (bp_keys p) →
  ∃ pH log',
    run_bar w barData geneSymbol pC pctPlot log = (inr pH, log ++ log') ∧
    pH.*1.*1 = bp_n p ∧
    pH.*1.*2 = replicate (length (bp_n p)) v ∧
    pH.*2 = colors_of pal (bp_keys p).
Proof.
  intros p pal Hr Hlen Hv Hk.
  assert (Hw : (bp_start p < bp_end p)%nat) by (subst p; destruct w, pctPlot; cbn; lia).
  assert (Hn : (1 < length (bp_n p))%nat) by (subst p; destruct w, pctPlot; vm_compute; lia).
  pose proof (bar_profile_lengths w pctPlot) as Hc. cbv zeta in Hc. fold p in Hc.
  rewrite run_bar_generic. fold p.
  rewrite bar_generic_run by apply bar_profile_draws_only.
  rewrite Hr. cbv zeta. fold pal. unfold has_keys in Hk. rewrite Hk.
  assert (slice (bp_start p) (bp_end p) r = [v]) as ->.
  { rewrite slice_short by lia.
    rewrite (drop_S _ _ _ Hv). rewrite drop_ge by lia. reflexivity. }
  assert (broadcast (length (bp_n p)) (length [v]) = Some (length (bp_n p))) as ->.
  { unfold broadcast. cbn [length].
    destruct (Nat.eqb_spec (length (bp_n p)) 1); [lia|].
    reflexivity. }
  do 2 eexists. split; [reflexivity|].
  rewrite broadcast_to_same. cbn [broadcast_to].
  replace (cycle (length (bp_n p)) (colors_of pal (bp_keys p)))
    with (colors_of pal (bp_keys p))
    by (rewrite <- Hc, <- (length_colors_of pal (bp_keys p)); symmetry; apply cycle_same).
  assert (length (zip (bp_n p) (replicate (length (bp_n p)) v)) = length (bp_n p)) as Hz
    by (rewrite length_zip, length_replicate; lia).
  split; [|split].
  - rewrite fst_zip by (rewrite Hz, length_colors_of; lia).
    apply fst_zip. rewrite length_replicate. lia.
  - rewrite fst_zip by (rewrite Hz, length_colors_of; lia).
    apply snd_zip. rewrite length_replicate. lia.
  - apply snd_zip. rewrite Hz, length_colors_of. lia.
Qed.

(** X14, witness. *)
Lemma bar_single_value_is_broadcast_witness :
  ∃ pH log',
    plotBars_Yoshimatsu2020 (one_row 2) "gene" None [] = (inr pH, log') ∧
    pH.*1.*2 = replicate 8 1%Q.
Proof.
  destruct (bar_single_value_is_broadcast PlotBars_Yoshimatsu2020 false (one_row 2) "gene"
              None [] (map QofN (seq 0 2)) 1%Q) as (pH & log' & Hrun & _ & Hh & _).
  - reflexivity.
  - reflexivity.
  - reflexivity.
  - vm_compute. reflexivity.
  - exists pH, log'. split; [exact Hrun|]. exact Hh.
Defined.

(** ** Ticks and bars *)

(** X15.  The six wrappers with one bar per cell type put the major ticks
    at 1, 2, ..., one per tick label.  There are as many labels as bars but
    in [plotBars_Hoang2020_PhotoDev_withcontaminatedlarvalrods], which
    formats with the 7 labels of [plotBars_Hoang2020_PhotoDev] its 8 bars:
    the bar of 'Rll' is labelled "Rod" and the last bar has no tick. *)
Theorem one_tick_per_bar_but_for_the_larval_rods w pctPlot barData geneSymbol pC log r :
  let p := bar_profile w pctPlot in
  w ∈ [PlotBars_Ogawa2021; PlotBars_Hoang2020; PlotBars_Hoang2020_Ret;
       PlotBars_Hoang2020_PhotoDev; PlotBars_Hoang2020_PhotoDev_withcontaminatedlarvalrods;
       PlotBars_Xu2020_RetDev] →
  cells barData !! 0%nat = Some r →
  (bp_end p ≤ length r)%nat →
  has_keys (if_not pC (bp_pC p)) (bp_keys p) →
  ∃ pH log' labels,
    run_bar w barData geneSymbol pC pctPlot log = (inr pH, log ++ log') ∧
    SetXticks (map QofN (seq 1 (length labels))) false ∈ log' ∧
    SetXticklabels labels ∈ log' ∧
    (w = PlotBars_Hoang2020_PhotoDev_withcontaminatedlarvalrods →
     length pH = 8%nat ∧ length labels = 7%nat ∧
     bp_keys p !! 6%nat = Some "Rll" ∧ labels !! 6%nat = Some "Rod") ∧
    (w ≠ PlotBars_Hoang2020_PhotoDev_withcontaminatedlarvalrods →
     length pH = length labels).
Proof.
  intros p Hw Hr Hlen Hk.
  assert (w ≠ PlotBars_Sun2018) as Hs.
  { intros ->. apply list_elem_of_In in Hw. cbn in Hw.
    repeat (destruct Hw as [Hw|Hw]; [discriminate Hw|]). exact Hw. }
  pose proof (bar_profile_slice_width w pctPlot Hs) as Hwd. cbv zeta in Hwd. fold p in Hwd.
  pose proof (bar_profile_lengths w pctPlot) as Hc. cbv zeta in Hc. fold p in Hc.
  rewrite run_bar_generic. fold p.
  rewrite (bar_generic_full p barData geneSymbol pC log r
             (bar_profile_draws_only w pctPlot geneSymbol) Hr Hlen Hwd Hc Hk).
  assert (length (zip (zip (bp_n p) (slice (bp_start p) (bp_end p) r))
                      (colors_of (if_not pC (bp_pC p)) (bp_keys p))) = length (bp_n p)) as Hl.
  { rewrite !length_zip, length_colors_of, length_slice. lia. }
  clear Hr Hlen Hk Hwd Hc Hs. revert Hl.
  generalize (zip (zip (bp_n p) (slice (bp_start p) (bp_end p) r))
                  (colors_of (if_not pC (bp_pC p)) (bp_keys p))).
  intros pH Hl. exists pH. subst p.
  apply list_elem_of_In in Hw. cbn in Hw.
  destruct Hw as [<-|[<-|[<-|[<-|[<-|[<-|[]]]]]]]; destruct pctPlot;
    (eexists;
     match goal with |- context [calls_of ?f] =>
       let cs := eval vm_compute in (calls_of f) in
       match cs with context [SetXticklabels ?l] => exists l end
     end;
     split; [reflexivity|];
     split; [do 5 apply list_elem_of_further; apply list_elem_of_here|];
     split; [do 6 apply list_elem_of_further; apply list_elem_of_here|];
     rewrite Hl; split;
       [intros E; first [discriminate E | repeat split; reflexivity]
       | intros NE; first [reflexivity | exfalso; apply NE; reflexivity]]).
Qed.

(** X15, witness. *)
Lemma one_tick_per_bar_but_for_the_larval_rods_witness :
  ∃ pH log' labels,
    plotBars_Hoang2020_PhotoDev_withcontaminatedlarvalrods (one_row 10) "gene" None false []
    = (inr pH, log') ∧
    SetXticklabels labels ∈ log' ∧
    length pH = 8%nat ∧ length labels = 7%nat.
Proof.
  destruct (one_tick_per_bar_but_for_the_larval_rods
              PlotBars_Hoang2020_PhotoDev_withcontaminatedlarvalrods false (one_row 10)
              "gene" None [] (map QofN (seq 0 10)))
    as (pH & log' & labels & Hrun & _ & Hl & Hc & _).
  - apply list_elem_of_In. cbn. tauto.
  - reflexivity.
  - vm_compute. lia.
  - vm_compute. reflexivity.
  - exists pH, log', labels. split; [exact Hrun|]. split; [exact Hl|].
    destruct (Hc eq_refl) as (H8 & H7 & _). split; assumption.
Defined.
